(** * The BIOS device of the 8086 emulator

    A shallow embedding of [packages/x86-cpu/src/devices/BIOS/BIOS.ts]:
    the interrupt services the BIOS attaches to the CPU (INT 10h video,
    INT 13h disk, INT 15h wait, INT 16h keyboard), as state transformers
    over the part of the machine they touch.

    JavaScript numbers that hold integers are [Z]; 32-bit bit operations
    are [Z.land], [Z.lor], [Z.shiftl], [Z.shiftr] with the wrap to a signed
    32-bit result written out where the result can leave that range;
    objects used as maps are [gmap]; byte buffers are lists of bytes; a
    handler that can raise a JavaScript exception returns an [Outcome]. *)

From Stdlib Require Import ZArith QArith Lia List Bool String.
From stdpp Require Import base option list gmap strings pretty.

Local Open Scope Z_scope.

(** ** JavaScript values and operators *)

Inductive JSError :=
| TypeError
| RangeError
| Error (msg : string).

Inductive Outcome (A : Type) :=
| Returns (a : A)
| Throws (e : JSError).
Arguments Returns {A} a.
Arguments Throws {A} e.

#[global] Instance Outcome_ret : MRet Outcome := fun A a => Returns a.

#[global] Instance Outcome_bind : MBind Outcome := fun A B k o =>
  match o with
  | Returns a => k a
  | Throws e => Throws e
  end.

(** ToInt32: the signed 32-bit value of an integer. *)
Definition to_int32 (x : Z) : Z := (x + 2 ^ 31) mod 2 ^ 32 - 2 ^ 31.

(** [a << n], [a >> n], [a & b], [a | b] and [a ^ b].  The operands at
    every use below are register values or masks, far inside the signed
    32-bit range; only a left shift can carry a result out of it. *)
Definition js_shl (a n : Z) : Z := to_int32 (Z.shiftl a (n mod 32)).
Definition js_shr (a n : Z) : Z := Z.shiftr a (n mod 32).
Definition js_and (a b : Z) : Z := Z.land a b.
Definition js_or (a b : Z) : Z := Z.lor a b.
Definition js_xor (a b : Z) : Z := Z.lxor a b.

(** The values a loosely typed argument takes in this file. *)
Inductive JSValue :=
| JUndefined
| JNull
| JBool (b : bool)
| JNum (n : Z).

Definition truthy (v : JSValue) : bool :=
  match v with
  | JUndefined | JNull => false
  | JBool b => b
  | JNum n => negb (n =? 0)
  end.

(** [a && b] and [a || b] return one of their operands. *)
Definition js_land (a b : JSValue) : JSValue := if truthy a then b else a.
Definition js_lor (a b : JSValue) : JSValue := if truthy a then a else b.

(** ToNumber on the values above, for integer results ([undefined] gives
    NaN, which every integer store and bit operation reads as 0). *)
Definition to_integer (v : JSValue) : Z :=
  match v with
  | JUndefined | JNull => 0
  | JBool b => Z.b2z b
  | JNum n => n
  end.

(** ** Register file and flags *)

(** Modelled from the spec: the register file of the CPU ([X86CPU],
    defined outside [BIOS.ts]).  Section 3: 16-bit general and segment
    registers; AL/AH, CL/CH, DL/DH, BL/BH alias the low and high octets
    of AX, CX, DX, BX; FLAGS holds CF at bit 0 and ZF at bit 6.  Section
    4.1: a write to a byte alias leaves the other byte of the parent
    untouched.  A write keeps the low 16 (or 8) bits of the value. *)
Module Regs.

Record t := Make {
  r_ax : Z;
  r_bx : Z;
  r_cx : Z;
  r_dx : Z;
  r_bp : Z;
  r_es : Z;
  r_flags : Z
}.

Definition u16 (v : Z) : Z := Z.land v 0xffff.
Definition lo8 (v : Z) : Z := Z.land v 0xff.
Definition hi8 (v : Z) : Z := Z.land (Z.shiftr v 8) 0xff.
Definition with_lo8 (v b : Z) : Z := Z.lor (Z.land v 0xff00) (Z.land b 0xff).
Definition with_hi8 (v b : Z) : Z :=
  Z.lor (Z.land v 0x00ff) (Z.shiftl (Z.land b 0xff) 8).

Definition ax (r : t) : Z := u16 (r_ax r).
Definition bx (r : t) : Z := u16 (r_bx r).
Definition cx (r : t) : Z := u16 (r_cx r).
Definition dx (r : t) : Z := u16 (r_dx r).
Definition es (r : t) : Z := u16 (r_es r).

Definition al (r : t) : Z := lo8 (r_ax r).
Definition ah (r : t) : Z := hi8 (r_ax r).
Definition bl (r : t) : Z := lo8 (r_bx r).
Definition bh (r : t) : Z := hi8 (r_bx r).
Definition cl (r : t) : Z := lo8 (r_cx r).
Definition ch (r : t) : Z := hi8 (r_cx r).
Definition dl (r : t) : Z := lo8 (r_dx r).
Definition dh (r : t) : Z := hi8 (r_dx r).

Definition set_ax (v : Z) (r : t) : t :=
  Make (u16 v) (r_bx r) (r_cx r) (r_dx r) (r_bp r) (r_es r) (r_flags r).
Definition set_dx (v : Z) (r : t) : t :=
  Make (r_ax r) (r_bx r) (r_cx r) (u16 v) (r_bp r) (r_es r) (r_flags r).
Definition set_flags (v : Z) (r : t) : t :=
  Make (r_ax r) (r_bx r) (r_cx r) (r_dx r) (r_bp r) (r_es r) v.

Definition set_al (v : Z) (r : t) : t := set_ax (with_lo8 (r_ax r) v) r.
Definition set_ah (v : Z) (r : t) : t := set_ax (with_hi8 (r_ax r) v) r.
Definition set_dl (v : Z) (r : t) : t := set_dx (with_lo8 (r_dx r) v) r.
Definition set_dh (v : Z) (r : t) : t := set_dx (with_hi8 (r_dx r) v) r.

(** [status.<flag>]: one bit of FLAGS, read as 0 or 1; a write stores
    the low bit of the number written. *)
Definition CF : Z := 0.
Definition ZF : Z := 6.

Definition flag (bit : Z) (r : t) : Z := Z.b2z (Z.testbit (r_flags r) bit).
Definition set_flag (bit v : Z) (r : t) : t :=
  set_flags (if Z.odd v then Z.setbit (r_flags r) bit
             else Z.clearbit (r_flags r) bit) r.

Definition cf : t -> Z := flag CF.
Definition zf : t -> Z := flag ZF.
Definition set_cf : Z -> t -> t := set_flag CF.
Definition set_zf : Z -> t -> t := set_flag ZF.

End Regs.

(** Modelled from the spec: [cpu.getMemAddress(seg, off)] (in [X86CPU]).
    Section 3: segment:offset resolves to the linear address
    [(segment << 4) + offset], wrapping modulo [0x100000]. *)
Definition getMemAddress (seg off : Z) : Z := (Z.shiftl seg 4 + off) mod 0x100000.

(** ** Byte buffers *)

(** A [Buffer] (and the [Uint8Array] behind [cpu.mem]) is its list of
    bytes; [byteLength] is the length and indices are integers. *)
Definition byteLength (b : list Z) : Z := Z.of_nat (length b).

Definition byteAt (b : list Z) (i : Z) : option Z :=
  if i <? 0 then None else b !! Z.to_nat i.

(** [this.subarray(start, end)] for [0 <= start]. *)
Definition subarray (this : list Z) (start end_ : Z) : list Z :=
  take (Z.to_nat (end_ - start)) (drop (Z.to_nat start) this).

(** [Uint8Array.prototype.set.call(target, chunk, at)] when the chunk fits. *)
Definition set_bytes (target chunk : list Z) (at_ : Z) : list Z :=
  take (Z.to_nat at_) target ++ chunk
    ++ drop (Z.to_nat at_ + length chunk) target.

(** [this.copy(target, targetStart, start, end)] of the [buffer] package,
    which the module imports by name; the module runs in a browser (it
    listens to DOM key events), where that name is the npm package.  It
    is a dependency, not code of the repository; the definition follows
    its steps in order: clamp [targetStart] to the target, raise [end] to [start],
    return at once when nothing is to be copied or a buffer is empty,
    raise [RangeError] on a negative or out-of-range index, clamp [end]
    to the source and to the room left in the target, then store the
    bytes.  The arguments passed here are always numbers, so the
    defaulting of missing arguments does not arise.  The result is the
    target after the call. *)
Definition Buffer_copy (this target : list Z) (targetStart start end_ : Z)
  : Outcome (list Z) :=
  let targetStart :=
    if byteLength target <=? targetStart then byteLength target else targetStart in
  let end_ := if (0 <? end_) && (end_ <? start) then start else end_ in
  if end_ =? start then Returns target
  else if (byteLength target =? 0) || (byteLength this =? 0) then Returns target
  else if targetStart <? 0 then Throws RangeError
  else if (start <? 0) || (byteLength this <=? start) then Throws RangeError
  else if end_ <? 0 then Throws RangeError
  else
    let end_ := if byteLength this <? end_ then byteLength this else end_ in
    let end_ :=
      if byteLength target - targetStart <? end_ - start
      then byteLength target - targetStart + start else end_ in
    Returns (set_bytes target (subarray this start end_) targetStart).

(** ** The machine the handlers act on *)

(** [Vec2D] of [@ts-cc/core]: a mutable pair of coordinates. *)
Module Vec2D.
Record t := Make { x : Z; y : Z }.
End Vec2D.

(** The presets of [Video/VGAModesPresets] are known here by the table
    and key the BIOS takes them from. *)
Inductive VGAPreset :=
| VGA_TEXT_MODES_PRESET (key : string)
| VGA_GRAPHICS_MODES_PRESET (key : string).

(** [new VideoMode(code, w, h, vgaPreset, pages)]: the fields the BIOS
    reads, and the fifth constructor argument. *)
Module VideoMode.
Record t := Make {
  code : Z;
  w : Z;
  h : Z;
  vgaPreset : VGAPreset;
  pages : Z
}.
End VideoMode.

(** [type BIOSFloppyDrive]. *)
Module Drive.
Record Info := MakeInfo { sector : Z; sectors : Z; heads : Z }.
Record t := Make {
  buffer : option (list Z);
  track : Z;
  info : Info
}.
Definition set_buffer (b : option (list Z)) (d : t) : t :=
  Make b (track d) (info d).
End Drive.

(** [type KeymapTable]: key code to the list of its scan codes. *)
Abbreviation KeymapTable := (gmap Z (list Z)).

(** The closure stored in [keymap.callback] by [keyListener]; what it
    captures is the table its [readKeyState] call passes ([null] for
    service 0h). *)
Inductive KeyCallback :=
| ReadKeyInto (keymapTable : option KeymapTable).

(** The local [keymap] object of [initKeyboard]. *)
Module Keymap.
Record t := Make {
  caps : bool;
  ctrl : bool;
  alt : bool;
  shift : bool;
  key : option Z;
  callback : option KeyCallback
}.
End Keymap.

(** The argument of [setVideoMode(code: number | VideoMode)].  A number
    may be NaN. *)
Inductive JSNumber :=
| Num (n : Z)
| NaN.

Inductive ModeArg :=
| ModeCode (code : JSNumber)
| ModeObject (mode : VideoMode.t).

Inductive Warning :=
| UnknownScreenCode (code : ModeArg).

(** The callback handed to [setTimeout] by INT 15h. *)
Inductive TimerCallback :=
| ClearCarryAndResume.

(** Modelled from the spec: the part of the CPU ([X86CPU], defined
    outside [BIOS.ts]) the BIOS reaches.  Section 3: the register file,
    the memory as one byte array, and the [paused] flag of the scheduler
    state; besides these, the boot medium [cpu.device] and what was sent
    to [cpu.logger.warn]. *)
Module CPU.
Record t := Make {
  regs : Regs.t;
  mem : list Z;
  pause : bool;
  device : option (list Z);
  warnings : list Warning
}.
End CPU.

(** Modelled from the spec: the state of the VGA device ([Video/VGA],
    defined outside [BIOS.ts]) behind the calls the BIOS makes.
    Section 4.6 names the services set/get cursor and the write and read
    of characters; section 6 gives a text cell as a (char, attribute)
    pair.  The device keeps the text cursor as the location last set, the
    preset last loaded, whether a text mode is active, the text cells by
    (page, column, row), and its mapped graphics memory by address. *)
Module VGA.
Record t := Make {
  cursor : Vec2D.t;
  textMode : bool;
  preset : option VGAPreset;
  pixelScreenWidth : Z;
  cells : gmap (Z * Z * Z) (Z * Z);
  vram : gmap Z Z
}.
End VGA.

(** The fields of the [BIOS] object. *)
Module BIOS.
Record Screen := MakeScreen { page : Z; mode : option VideoMode.t }.
Record t := Make {
  drives : gmap Z Drive.t;
  screen : Screen;
  blink_enabled : bool;
  keymap : Keymap.t
}.
End BIOS.

(** The machine: CPU, BIOS, VGA, and the timers pending in the host, each
    a delay in milliseconds and the callback to run. *)
Record Machine := MkMachine {
  cpu : CPU.t;
  bios : BIOS.t;
  vga : VGA.t;
  timers : list (Q * TimerCallback)
}.

Definition regs (m : Machine) : Regs.t := CPU.regs (cpu m).
Definition mem (m : Machine) : list Z := CPU.mem (cpu m).
Definition pause (m : Machine) : bool := CPU.pause (cpu m).
Definition device (m : Machine) : option (list Z) := CPU.device (cpu m).
Definition warnings (m : Machine) : list Warning := CPU.warnings (cpu m).
Definition drives (m : Machine) : gmap Z Drive.t := BIOS.drives (bios m).
Definition screen (m : Machine) : BIOS.Screen := BIOS.screen (bios m).
Definition keymap (m : Machine) : Keymap.t := BIOS.keymap (bios m).

Definition set_cpu (c : CPU.t) (m : Machine) : Machine :=
  MkMachine c (bios m) (vga m) (timers m).
Definition set_bios (b : BIOS.t) (m : Machine) : Machine :=
  MkMachine (cpu m) b (vga m) (timers m).
Definition set_vga (v : VGA.t) (m : Machine) : Machine :=
  MkMachine (cpu m) (bios m) v (timers m).
Definition set_timers (t : list (Q * TimerCallback)) (m : Machine) : Machine :=
  MkMachine (cpu m) (bios m) (vga m) t.

Definition set_regs (r : Regs.t) (m : Machine) : Machine :=
  set_cpu (CPU.Make r (mem m) (pause m) (device m) (warnings m)) m.
Definition set_mem (b : list Z) (m : Machine) : Machine :=
  set_cpu (CPU.Make (regs m) b (pause m) (device m) (warnings m)) m.
Definition set_pause (p : bool) (m : Machine) : Machine :=
  set_cpu (CPU.Make (regs m) (mem m) p (device m) (warnings m)) m.
Definition warn (w : Warning) (m : Machine) : Machine :=
  set_cpu (CPU.Make (regs m) (mem m) (pause m) (device m) (warnings m ++ [w])) m.

Definition set_drives (d : gmap Z Drive.t) (m : Machine) : Machine :=
  set_bios (BIOS.Make d (screen m) (BIOS.blink_enabled (bios m)) (keymap m)) m.
Definition set_screen (s : BIOS.Screen) (m : Machine) : Machine :=
  set_bios (BIOS.Make (drives m) s (BIOS.blink_enabled (bios m)) (keymap m)) m.
Definition set_blink_enabled (b : bool) (m : Machine) : Machine :=
  set_bios (BIOS.Make (drives m) (screen m) b (keymap m)) m.
Definition set_keymap (k : Keymap.t) (m : Machine) : Machine :=
  set_bios (BIOS.Make (drives m) (screen m) (BIOS.blink_enabled (bios m)) k) m.

(** ** INT 13h: disk *)

(** The drive table [init] builds, for the boot drive number in DL. *)
Definition init_drives (dl : Z) : gmap Z Drive.t :=
  {[ dl := Drive.Make None 0 (Drive.MakeInfo 512 18 2) ]}.

(** Service 0h, reset floppy drive. *)
Definition int13_reset (m : Machine) : Machine :=
  match drives m !! Regs.dl (regs m) with
  | Some _ => set_regs (Regs.set_cf 0x0 (Regs.set_ah 0x0 (regs m))) m
  | None => set_regs (Regs.set_cf 0x1 (Regs.set_ah 0x6 (regs m))) m
  end.

(** The constants service 2h computes before it copies. *)
Definition read_cylinder (r : Regs.t) : Z :=
  js_or (js_shr (js_and (Regs.cx r) 0xff00) 8) (js_shl (js_and (Regs.cx r) 0xc0) 2).

Definition read_sector (r : Regs.t) : Z := js_and (Regs.cl r) 0x3f.

Definition read_src (r : Regs.t) (drive : Drive.t) : Z :=
  ((read_cylinder r * Drive.heads (Drive.info drive) + Regs.dh r)
     * Drive.sectors (Drive.info drive)
   + read_sector r - 0x1)
  * Drive.sector (Drive.info drive).

Definition read_dest (r : Regs.t) : Z := getMemAddress (Regs.es r) (Regs.bx r).

(** The copy loop of service 2h, [n] iterations from index [i]: the
    memory after the loop and the [error] flag, or the exception of a
    [copy] call. *)
Fixpoint copy_sectors (n : nat) (i : Z) (buffer : list Z)
    (src dest sectorSize : Z) (mem : list Z) : Outcome (list Z * bool) :=
  match n with
  | O => Returns (mem, false)
  | S n' =>
      let offset := i * sectorSize in
      if byteLength mem <? dest + offset + sectorSize then Returns (mem, true)
      else
        mem' ← Buffer_copy buffer mem (dest + offset) (src + offset)
                 (Z.min (src + offset + sectorSize) (byteLength buffer));
        if byteLength buffer <? src + offset + sectorSize then Returns (mem', true)
        else copy_sectors n' (i + 1) buffer src dest sectorSize mem'
  end.

(** Service 2h, read from floppy drive.  [drives[regs.dl]] of a drive that
    is not in the table is [undefined], and reading its [info] raises
    [TypeError].  A drive without a buffer takes [cpu.device]; the drive
    is an object of the table, so the table sees the assignment. *)
Definition int13_read (m : Machine) : Outcome Machine :=
  let r := regs m in
  match drives m !! Regs.dl r with
  | None => Throws TypeError
  | Some drive0 =>
      let src := read_src r drive0 in
      let dest := read_dest r in
      let sectorSize := Drive.sector (Drive.info drive0) in
      let drive :=
        match Drive.buffer drive0 with
        | None => Drive.set_buffer (device m) drive0
        | Some _ => drive0
        end in
      let m := set_drives (<[Regs.dl r := drive]> (drives m)) m in
      '(m, error) ←
        match Drive.buffer drive with
        | Some buffer =>
            '(mem', error) ←
              copy_sectors (Z.to_nat (Regs.al r)) 0 buffer src dest sectorSize (mem m);
            let m := set_mem mem' m in
            mret (set_regs (Regs.set_ah 0x0 (Regs.set_cf 0x0 (regs m))) m, error)
        | None => mret (m, true)
        end;
      mret (if error : bool
            then set_regs (Regs.set_ah 0xbb (Regs.set_cf 0x1 (regs m))) m
            else m)
  end.

(** ** INT 15h: wait *)

(** [(((cx << 0xf) | dx) / 1000) * 2], as an exact rational.  The handler
    only compares it with 2, and the division of a double by 1000 is
    monotone and exact at 1000, so the comparison comes out the same. *)
Definition wait_miliseconds (r : Regs.t) : Q :=
  (inject_Z (js_or (js_shl (Regs.cx r) 0xf) (Regs.dx r)) / 1000 * 2)%Q.

(** Service 86h, wait in microseconds. *)
Definition int15_wait (m : Machine) : Machine :=
  let miliseconds := wait_miliseconds (regs m) in
  if negb (Qle_bool 2 miliseconds) then m
  else
    let m := set_regs (Regs.set_cf 1 (regs m)) m in
    let m := set_pause true m in
    set_timers (timers m ++ [(miliseconds, ClearCarryAndResume)]) m.



(** ** INT 16h: keyboard *)

(** The tables of [constants/x86] the keyboard services index, taken as
    parameters: their contents are defined outside [BIOS.ts]. *)
Record KeyTables := MkKeyTables {
  SCAN_CODES_TABLE : KeymapTable;
  AT2_SCAN_CODES_QWERTY_PRESSED : KeymapTable
}.

(** What the listeners read of a [KeyboardEvent], and whether
    [document.activeElement] is [document.body] when it arrives. *)
Record KeyboardEvent := MkKeyboardEvent {
  capsLock : bool;
  altKey : bool;
  ctrlKey : bool;
  shiftKey : bool;
  keyCode : Z;
  bodyIsActive : bool
}.

Definition clearKeyBuffer (clearCallback : bool) (m : Machine) : Machine :=
  set_keymap
    (Keymap.Make false false false false None
       (if clearCallback then None else Keymap.callback (keymap m))) m.

Definition isCaseModifyKeycode (code : Z) : bool := (18 <? code) || (code <? 16).

(** [mapping[i]]: [undefined] outside the array. *)
Definition element (mapping : list Z) (i : Z) : JSValue :=
  match byteAt mapping i with
  | Some v => JNum v
  | None => JUndefined
  end.

(** [keymapTable || SCAN_CODES_TABLE]: a table is an object and truthy,
    [null] and [undefined] are not. *)
Definition read_table (T : KeyTables) (keymapTable : option KeymapTable)
  : KeymapTable :=
  default (SCAN_CODES_TABLE T) keymapTable.

(** [readKeyState(keymapTable, code)]: the returned flag and the machine
    with AX assigned.  A code that is [null] or 0 is falsy. *)
Definition readKeyState (T : KeyTables) (keymapTable : option KeymapTable)
    (code : option Z) (m : Machine) : bool * Machine :=
  let m := set_regs (Regs.set_ax 0x0 (regs m)) m in
  match code with
  | None => (false, m)
  | Some c =>
      if c =? 0 then (false, m)
      else
        match read_table T keymapTable !! c with
        | None => (false, m)
        | Some mapping =>
            let i := Z.min (Z.of_nat (length mapping) - 1)
                       (if Keymap.shift (keymap m) then 1 else 0) in
            (true, set_regs (Regs.set_ax (to_integer (element mapping i)) (regs m)) m)
        end
  end.

(** [keyListener(callback)], where [callback] is
    [code => readKeyState(keymapTable, code)]. *)
Definition keyListener (T : KeyTables) (keymapTable : option KeymapTable)
    (m : Machine) : Machine :=
  match Keymap.key (keymap m) with
  | None =>
      let m := set_pause true m in
      let k := keymap m in
      set_keymap
        (Keymap.Make (Keymap.caps k) (Keymap.ctrl k) (Keymap.alt k)
           (Keymap.shift k) (Keymap.key k) (Some (ReadKeyInto keymapTable))) m
  | Some k =>
      if isCaseModifyKeycode k
      then clearKeyBuffer true (snd (readKeyState T keymapTable (Some k) m))
      else m
  end.

(** The closure [keyListener] installs, called with a key event. *)
Definition run_key_callback (T : KeyTables) (cb : KeyCallback)
    (e : KeyboardEvent) (m : Machine) : Machine :=
  match cb with
  | ReadKeyInto keymapTable =>
      if negb (bodyIsActive e) then m
      else
        match Keymap.key (keymap m) with
        | Some k =>
            if isCaseModifyKeycode k
            then
              let m := snd (readKeyState T keymapTable (Some k) m) in
              let m := clearKeyBuffer true m in
              set_pause false m
            else m
        | None => m
        end
  end.

(** The [keydown] listener. *)
Definition keydown (T : KeyTables) (e : KeyboardEvent) (m : Machine) : Machine :=
  let m :=
    set_keymap
      (Keymap.Make (capsLock e) (ctrlKey e) (altKey e) (shiftKey e)
         (Some (keyCode e)) (Keymap.callback (keymap m))) m in
  match Keymap.callback (keymap m) with
  | Some cb => run_key_callback T cb e m
  | None => m
  end.

(** The [keyup] listener. *)
Definition keyup (m : Machine) : Machine := clearKeyBuffer false m.

(** Service 0h, wait for keystroke and read. *)
Definition int16_wait_key (T : KeyTables) (m : Machine) : Machine :=
  keyListener T None m.

(** Service 10h, wait for keystroke and read, AT, PS/2. *)
Definition int16_wait_key_at (T : KeyTables) (m : Machine) : Machine :=
  keyListener T (Some (AT2_SCAN_CODES_QWERTY_PRESSED T)) m.

(** Service 1h, get keyboard status. *)
Definition int16_status (T : KeyTables) (m : Machine) : Machine :=
  let '(status, m) := readKeyState T None (Keymap.key (keymap m)) m in
  set_regs (Regs.set_zf (js_xor (Z.b2z status) 1) (regs m)) m.

(** Service 2h, get keyboard flags: [BIOSKeyboardFlags] packs one bit per
    field at the position its [@bits] decorator names. *)
Definition int16_flags (m : Machine) : Machine :=
  let k := keymap m in
  let bit (n : Z) (b : bool) := Z.shiftl (Z.b2z b) n in
  let number :=
    Z.lor (bit 6 (Keymap.caps k))
      (Z.lor (bit 2 (Keymap.ctrl k))
         (Z.lor (bit 3 (Keymap.alt k))
            (Z.lor (bit 1 (Keymap.shift k)) (bit 0 (Keymap.shift k))))) in
  set_regs (Regs.set_al number (regs m)) m.

(** ** INT 10h: video *)

(** What the video services take from outside [BIOS.ts], as parameters:
    the rows of [VGA_8X8_FONT.data], [vga.scrollTextUp()], and the string
    a [VideoMode] object converts to when it is used as a property key
    (["[object Object]"] unless the class overrides [toString]). *)
Record VideoImports := MkVideoImports {
  VGA_8X8_FONT_data : Z -> Z;
  scrollTextUp : VGA.t -> VGA.t;
  VideoMode_toString : VideoMode.t -> string
}.

(** [static VideoMode]: an object literal, so its keys are the decimal
    strings of the mode numbers. *)
Definition BIOS_VideoMode : gmap string VideoMode.t :=
  list_to_map
    [ ("0", VideoMode.Make 0x0 40 25 (VGA_TEXT_MODES_PRESET "40x25") 0x8);
      ("1", VideoMode.Make 0x1 40 25 (VGA_TEXT_MODES_PRESET "40x25") 0x8);
      ("2", VideoMode.Make 0x2 80 25 (VGA_TEXT_MODES_PRESET "80x25") 0x8);
      ("3", VideoMode.Make 0x3 80 25 (VGA_TEXT_MODES_PRESET "80x25") 0x8);
      ("4", VideoMode.Make 0x4 320 200 (VGA_GRAPHICS_MODES_PRESET "320x200x4") 0x1);
      ("17", VideoMode.Make 0x11 640 480 (VGA_GRAPHICS_MODES_PRESET "640x480x2") 0x1);
      ("18", VideoMode.Make 0x12 640 480 (VGA_GRAPHICS_MODES_PRESET "640x480x16") 0x1);
      ("19", VideoMode.Make 0x13 320 200 (VGA_GRAPHICS_MODES_PRESET "320x200x256") 0x1)
    ]%string.

(** The mode service 11h builds for AL = 12h. *)
Definition mode_80x50 : VideoMode.t :=
  VideoMode.Make 0x12 80 50 (VGA_TEXT_MODES_PRESET "80x50") 0x1.

(** [Number.isNaN(v)]: true only of the number NaN; it does not convert
    its argument, so it is false of every object. *)
Definition Number_isNaN (v : ModeArg) : bool :=
  match v with
  | ModeCode NaN => true
  | ModeCode (Num _) => false
  | ModeObject _ => false
  end.

(** The property key [BIOS.VideoMode[code]] looks up. *)
Definition property_key (V : VideoImports) (v : ModeArg) : string :=
  match v with
  | ModeCode (Num n) => pretty n
  | ModeCode NaN => "NaN"
  | ModeObject mode => VideoMode_toString V mode
  end.

(** Modelled from the spec: [vga.setCursorLocation(vec)] (in
    [Video/VGA]).  Section 4.6, set cursor: the device keeps the location. *)
Definition setCursorLocation (c : Vec2D.t) (v : VGA.t) : VGA.t :=
  VGA.Make c (VGA.textMode v) (VGA.preset v) (VGA.pixelScreenWidth v)
    (VGA.cells v) (VGA.vram v).

(** Modelled from the spec: [vga.getTextCursorLocation()] (in
    [Video/VGA]).  Section 4.6, get cursor: a fresh vector of the location
    the device keeps. *)
Definition getTextCursorLocation (v : VGA.t) : Vec2D.t :=
  Vec2D.Make (Vec2D.x (VGA.cursor v)) (Vec2D.y (VGA.cursor v)).

(** Modelled from the spec: [vga.loadModePreset(preset)] (in
    [Video/VGA]).  Section 4.6, set mode: the preset becomes the loaded
    one, and a text preset puts the device in text mode. *)
Definition loadModePreset (p : VGAPreset) (v : VGA.t) : VGA.t :=
  VGA.Make (VGA.cursor v)
    (match p with
     | VGA_TEXT_MODES_PRESET _ => true
     | VGA_GRAPHICS_MODES_PRESET _ => false
     end)
    (Some p) (VGA.pixelScreenWidth v) (VGA.cells v) (VGA.vram v).

(** Modelled from the spec: [mode.write(memIO, character, color, x, y,
    page)] (in [BIOS/VideoMode]).  Section 6: a text cell is a (char,
    attribute) pair, one byte each; the call stores the pair in the cell
    at column [x], row [y] of the page. *)
Definition VideoMode_write (character : Z) (color : JSValue) (x y page : Z)
    (v : VGA.t) : VGA.t :=
  VGA.Make (VGA.cursor v) (VGA.textMode v) (VGA.preset v) (VGA.pixelScreenWidth v)
    (<[(page, x, y) := (Z.land character 0xff, Z.land (to_integer color) 0xff)]>
       (VGA.cells v))
    (VGA.vram v).

(** Modelled from the spec: [cpu.memIO.write[0x1](value, address)] (memory
    I/O of the CPU) on an address the VGA maps.  Section 4.6: a write in a
    mapped range is routed to the device, which keeps the byte. *)
Definition vram_write8 (value address : Z) (v : VGA.t) : VGA.t :=
  VGA.Make (VGA.cursor v) (VGA.textMode v) (VGA.preset v) (VGA.pixelScreenWidth v)
    (VGA.cells v) (<[address := Z.land value 0xff]> (VGA.vram v)).

(** [setVideoMode(code)].  When [Number.isNaN(code)] holds the new mode
    is [code] itself, which is NaN and falsy like a missing table entry. *)
Definition setVideoMode (V : VideoImports) (code : ModeArg) (m : Machine) : Machine :=
  let newMode :=
    if Number_isNaN code then None
    else BIOS_VideoMode !! property_key V code in
  match newMode with
  | Some mode =>
      let m := set_screen (BIOS.MakeScreen (BIOS.page (screen m)) (Some mode)) m in
      set_vga (loadModePreset (VideoMode.vgaPreset mode) (vga m)) m
  | None => warn (UnknownScreenCode code) m
  end.

(** [writeGraphicsCharacter(pos, char, attr, fgColor)]: an 8x8 glyph. *)
Definition writeGraphicsCharacter (V : VideoImports) (pos : Vec2D.t)
    (char : Z) (attr fgColor : JSValue) (v : VGA.t) : VGA.t :=
  let background := js_shr (js_and (to_integer attr) 0x70) 4 in
  foldl
    (fun v row =>
       let charBitsetRow := VGA_8X8_FONT_data V (8 * char + row) in
       foldl
         (fun v col =>
            let bit := js_and (js_shr charBitsetRow col) 0x1 in
            vram_write8
              (if bit =? 0 then background else to_integer fgColor)
              (0xa0000 + (Vec2D.y pos * 8 + row) * VGA.pixelScreenWidth v
               + Vec2D.x pos * 8 + (8 - 1 - col))
              v)
         v (seqZ 0 8))
    v (seqZ 0 8).

(** [writeCharacter(character, attribute, color, moveCursor, cursor)].
    The cursor vector is changed in place, so the vector after the call
    is part of the result; reading a field of the [null] mode raises
    [TypeError]. *)
Definition writeCharacter (V : VideoImports) (character : Z)
    (attribute color : JSValue) (moveCursor : bool) (cursor : Vec2D.t)
    (m : Machine) : Outcome (Vec2D.t * Machine) :=
  let page := BIOS.page (screen m) in
  let mode := BIOS.mode (screen m) in
  let need_mode : Outcome VideoMode.t :=
    match mode with
    | Some md => Returns md
    | None => Throws TypeError
    end in
  '(cursor, m) ←
    (if character =? 0x8 then
       mret (Vec2D.Make (Vec2D.x cursor - 1) (Vec2D.y cursor), m)
     else if (character =? 0xa) || (character =? 0xd) then
       let cursor :=
         if character =? 0xa
         then Vec2D.Make (Vec2D.x cursor) (Vec2D.y cursor + 1)
         else Vec2D.Make 0 (Vec2D.y cursor) in
       md ← need_mode;
       if VideoMode.h md <=? Vec2D.y cursor
       then mret (Vec2D.Make (Vec2D.x cursor) (VideoMode.h md - 1),
                  set_vga (scrollTextUp V (vga m)) m)
       else mret (cursor, m)
     else
       let color :=
         js_lor
           (js_land color
              (match attribute with
               | JUndefined => JNum (Regs.bl (regs m))
               | _ => attribute
               end))
           (JNum 7) in
       m ← (if VGA.textMode (vga m) then
              md ← need_mode;
              mret (set_vga
                      (VideoMode_write character color (Vec2D.x cursor)
                         (Vec2D.y cursor) page (vga m)) m)
            else
              mret (set_vga
                      (writeGraphicsCharacter V cursor character attribute color
                         (vga m)) m));
       let cursor := Vec2D.Make (Vec2D.x cursor + 1) (Vec2D.y cursor) in
       md ← need_mode;
       if VideoMode.w md <=? Vec2D.x cursor then
         if VGA.textMode (vga m)
         then mret (Vec2D.Make 0 (Vec2D.y cursor + 1), m)
         else mret (Vec2D.Make (Vec2D.x cursor - 1) (Vec2D.y cursor), m)
       else mret (cursor, m));
  mret (cursor,
        if moveCursor then set_vga (setCursorLocation cursor (vga m)) m else m).

(** [writeCharacters(attribute, color, moveCursor)]: CX copies of AL,
    every call on the one cached cursor vector. *)
Fixpoint writeCharacters_loop (V : VideoImports) (n : nat) (al : Z)
    (attribute color : JSValue) (moveCursor : bool) (cachedCursor : Vec2D.t)
    (m : Machine) : Outcome Machine :=
  match n with
  | O => mret m
  | S n' =>
      '(cachedCursor, m) ←
        writeCharacter V al attribute color moveCursor cachedCursor m;
      writeCharacters_loop V n' al attribute color moveCursor cachedCursor m
  end.

Definition writeCharacters (V : VideoImports) (attribute color : JSValue)
    (moveCursor : bool) (m : Machine) : Outcome Machine :=
  let al := Regs.al (regs m) in
  let cx := Regs.cx (regs m) in
  let cachedCursor := getTextCursorLocation (vga m) in
  writeCharacters_loop V (Z.to_nat cx) al attribute color moveCursor cachedCursor m.

(** Service 0h, set video mode. *)
Definition int10_set_mode (V : VideoImports) (m : Machine) : Machine :=
  setVideoMode V (ModeCode (Num (Regs.al (regs m)))) m.

(** Service 2h, cursor position. *)
Definition int10_set_cursor (m : Machine) : Machine :=
  let dl := Regs.dl (regs m) in
  let dh := Regs.dh (regs m) in
  set_vga (setCursorLocation (Vec2D.Make dl dh) (vga m)) m.

(** Service 3h, get cursor position and shape: [Object.assign] writes DL,
    DH and AX in that order. *)
Definition int10_get_cursor (m : Machine) : Machine :=
  let cursor := getTextCursorLocation (vga m) in
  set_regs
    (Regs.set_ax 0
       (Regs.set_dh (Vec2D.y cursor) (Regs.set_dl (Vec2D.x cursor) (regs m)))) m.

(** Service 5h, change active screen. *)
Definition int10_set_page (m : Machine) : Machine :=
  set_screen (BIOS.MakeScreen (Regs.al (regs m)) (BIOS.mode (screen m))) m.

(** Services 9h and 0Ah, write character(s) at the cursor. *)
Definition int10_write_chars (V : VideoImports) (m : Machine) : Outcome Machine :=
  writeCharacters V JUndefined (JBool true) false m.

Definition int10_write_chars_plain (V : VideoImports) (m : Machine) : Outcome Machine :=
  writeCharacters V JNull (JBool false) false m.

(** Service 0Eh, teletype output. *)
Definition int10_teletype (V : VideoImports) (m : Machine) : Outcome Machine :=
  '(_, m) ←
    (if VGA.textMode (vga m)
     then writeCharacter V (Regs.al (regs m)) JNull (JBool false) true
            (getTextCursorLocation (vga m)) m
     else writeCharacter V (Regs.al (regs m)) (JNum (Regs.bl (regs m)))
            (JBool true) true (getTextCursorLocation (vga m)) m);
  mret m.

(** Service 10h, blinking. *)
Definition int10_blink (m : Machine) : Outcome Machine :=
  if negb (Regs.al (regs m) =? 0x03)
  then Throws (Error "Unsupported 10h function!")
  else if Regs.bx (regs m) =? 0 then mret (set_blink_enabled false m)
  else mret m.

(** Service 11h, extensions. *)
Definition int10_extensions (V : VideoImports) (m : Machine) : Machine :=
  if Regs.al (regs m) =? 0x12
  then setVideoMode V (ModeObject mode_80x50) m
  else m.

(** Service 0Fh, load mode columns to AH and the active mode to AL. *)
Definition int10_get_mode (m : Machine) : Outcome Machine :=
  match BIOS.mode (screen m) with
  | None => Throws TypeError
  | Some mode =>
      mret (set_regs
              (Regs.set_ah (VideoMode.w mode)
                 (Regs.set_al (VideoMode.code mode) (regs m))) m)
  end.

(** ** Dispatch *)

(** What [attachInterrupts(interrupt, 'ah', { ... })] registers: the
    service run for an interrupt number, selected by AH.  Services 1h,
    6h, 8h and 13h of INT 10h are registered by the BIOS but rest on
    parts of the VGA and of memory I/O this development does not model. *)
Inductive Dispatch :=
| Handled (o : Outcome Machine)
| NotEmbedded
| NotRegistered.

Definition bios_interrupt (T : KeyTables) (V : VideoImports) (interrupt : Z)
    (m : Machine) : Dispatch :=
  let ah := Regs.ah (regs m) in
  if interrupt =? 0x10 then
    if ah =? 0x0 then Handled (mret (int10_set_mode V m))
    else if ah =? 0x2 then Handled (mret (int10_set_cursor m))
    else if ah =? 0x3 then Handled (mret (int10_get_cursor m))
    else if ah =? 0x5 then Handled (mret (int10_set_page m))
    else if ah =? 0x9 then Handled (int10_write_chars V m)
    else if ah =? 0xa then Handled (int10_write_chars_plain V m)
    else if ah =? 0xe then Handled (int10_teletype V m)
    else if ah =? 0x10 then Handled (int10_blink m)
    else if ah =? 0x11 then Handled (mret (int10_extensions V m))
    else if ah =? 0xf then Handled (int10_get_mode m)
    else if (ah =? 0x1) || (ah =? 0x6) || (ah =? 0x8) || (ah =? 0x13)
    then NotEmbedded
    else NotRegistered
  else if interrupt =? 0x13 then
    if ah =? 0x0 then Handled (mret (int13_reset m))
    else if ah =? 0x2 then Handled (int13_read m)
    else NotRegistered
  else if interrupt =? 0x15 then
    if ah =? 0x86 then Handled (mret (int15_wait m))
    else NotRegistered
  else if interrupt =? 0x16 then
    if ah =? 0x0 then Handled (mret (int16_wait_key T m))
    else if ah =? 0x2 then Handled (mret (int16_flags m))
    else if ah =? 0x1 then Handled (mret (int16_status T m))
    else if ah =? 0x10 then Handled (mret (int16_wait_key_at T m))
    else NotRegistered
  else NotRegistered.

(** ** INT 10h, service 13h *)




(** The characters [writeCharacter] treats as normal ones: all but
    backspace, line feed and carriage return. *)
Definition printable (c : Z) : Prop := c <> 0x8 /\ c <> 0xa /\ c <> 0xd.






(** ** Sample machines *)

(** Concrete tables, imports and machines on which the statements below
    are exercised: mode 3h (80x25 text) with the cursor at the origin, no
    key held, no timer pending, and the drive table of [init] for DL = 0. *)
Definition sample_tables : KeyTables :=
  MkKeyTables {[ 65 := [0x1e61; 0x1e41] ]} {[ 65 := [0x1c] ]}.

Definition sample_video : VideoImports :=
  MkVideoImports (fun _ => 0) (fun v => v) (fun _ => "[object Object]"%string).

Definition mode_3 : VideoMode.t :=
  VideoMode.Make 0x3 80 25 (VGA_TEXT_MODES_PRESET "80x25") 0x8.

Definition no_key : Keymap.t := Keymap.Make false false false false None None.

Definition vga_at (x y : Z) : VGA.t :=
  VGA.Make (Vec2D.Make x y) true (Some (VGA_TEXT_MODES_PRESET "80x25")) 640 ∅ ∅.

Definition regs_of (ax bx cx dx : Z) : Regs.t := Regs.Make ax bx cx dx 0 0 0.

Definition booted (r : Regs.t) (memory : list Z) (image : option (list Z))
  : Machine :=
  MkMachine (CPU.Make r memory false image [])
    (BIOS.Make (init_drives 0) (BIOS.MakeScreen 0 (Some mode_3)) false no_key)
    (vga_at 0 0) [].

(** ** Vocabulary of the statements *)

(** The buffer service 2h of INT 13h reads for a drive: its own, or the
    boot medium when it has none yet. *)
Definition medium (m : Machine) (drive : Drive.t) : option (list Z) :=
  match Drive.buffer drive with
  | Some b => Some b
  | None => device m
  end.

(** Sector [j] of a transfer lies inside the memory at the destination
    and inside the drive buffer at the source. *)
Definition sector_within (memory buffer : list Z) (src dest sectorSize j : Z)
  : Prop :=
  dest + j * sectorSize + sectorSize <= byteLength memory
  /\ 0 <= src + j * sectorSize
  /\ src + j * sectorSize + sectorSize <= byteLength buffer.

(** Sector [j] of a transfer runs past the end of the memory or of the
    drive buffer. *)
Definition sector_overflows (memory buffer : list Z) (src dest sectorSize j : Z)
  : Prop :=
  byteLength memory < dest + j * sectorSize + sectorSize
  \/ byteLength buffer < src + j * sectorSize + sectorSize.

(** A transfer of [count] sectors lies inside both bounds: every sector
    does. *)
Definition transfer_within (memory buffer : list Z)
    (src dest sectorSize count : Z) : Prop :=
  forall j, 0 <= j < count ->
    sector_within memory buffer src dest sectorSize j.

(** A transfer of [count] sectors overflows a bound: one of its sectors
    runs past the end of the memory or of the drive buffer. *)
Definition transfer_overflows (memory buffer : list Z)
    (src dest sectorSize count : Z) : Prop :=
  exists j,
    0 <= j < count /\ sector_overflows memory buffer src dest sectorSize j.

(** The CHS position of a read as the documentation of INT 13h words it:
    the cylinder is CH with bits 7..6 of CL as its two high bits, the
    sector is bits 5..0 of CL, counted from 1, and a position is the byte
    offset of its sector on the drive. *)
Definition chs_cylinder (ch cl : Z) : Z := ch + 256 * (cl / 64).

Definition chs_sector (cl : Z) : Z := cl mod 64.

Definition chs_offset (drive : Drive.t) (cylinder head sector : Z) : Z :=
  ((cylinder * Drive.heads (Drive.info drive) + head)
     * Drive.sectors (Drive.info drive)
   + sector - 1)
  * Drive.sector (Drive.info drive).

(** A machine for the disk examples: AX, BX, CX, DX as given, a memory
    of [size] zero bytes, and a boot medium of [sectors] sectors, every
    byte of sector [i] being [i + 1]. *)
Definition disk_image (sectors : nat) : list Z :=
  flat_map (fun i => repeat (Z.of_nat i + 1) 512) (seq 0 sectors).

Definition disk_machine (ax bx cx dx : Z) (size sectors : nat) : Machine :=
  booted (regs_of ax bx cx dx) (repeat 0 size) (Some (disk_image sectors)).

(** The count INT 15h computes its delay from, [(CX << 15) | DX]. *)
Definition wait_count (r : Regs.t) : Z :=
  Z.lor (Z.shiftl (Regs.cx r) 15) (Regs.dx r).


(** A machine in mode 3h with the given registers, active page and
    cursor. *)
Definition text_machine (r : Regs.t) (page x y : Z) : Machine :=
  MkMachine (CPU.Make r [] false None [])
    (BIOS.Make (init_drives 0) (BIOS.MakeScreen page (Some mode_3)) false no_key)
    (vga_at x y) [].

(** The screen is in an 80x25 text mode. *)
Definition in_80x25_text_mode (m : Machine) : Prop :=
  VGA.textMode (vga m) = true
  /\ exists mode,
       BIOS.mode (screen m) = Some mode
       /\ VideoMode.w mode = 80 /\ VideoMode.h mode = 25.

(** INT 10h, AH=0Eh with AL='X', as the specification words it: the
    character lands with the default attribute in the cell at the cursor on
    text page 0, and the cursor moves one column on. *)
Definition int10_teletype_as_specified (T : KeyTables) (V : VideoImports)
    (m : Machine) : Prop :=
  Regs.ah (regs m) = 0xe ->
  Regs.al (regs m) = 0x58 ->
  in_80x25_text_mode m ->
  let x := Vec2D.x (VGA.cursor (vga m)) in
  let y := Vec2D.y (VGA.cursor (vga m)) in
  exists m',
    bios_interrupt T V 0x10 m = Handled (Returns m')
    /\ VGA.cells (vga m') !! (0, x, y) = Some (0x58, 7)
    /\ VGA.cursor (vga m') = Vec2D.Make (x + 1) y.

(** The scan code a key's mapping gives: its second entry when shift is
    held and there is one, its first otherwise (0 for a mapping with no
    entry, which the register store reads as [undefined]). *)
Definition scan_code (mapping : list Z) (shift : bool) : Z :=
  match mapping with
  | [] => 0
  | [c] => c
  | c :: c' :: _ => if shift then c' else c
  end.

(** The table a blocking read (AH=0 or AH=10h) looks the key up in. *)
Definition wait_table (T : KeyTables) (ah : Z) : KeymapTable :=
  if ah =? 0x10 then AT2_SCAN_CODES_QWERTY_PRESSED T else SCAN_CODES_TABLE T.

(** What reaches the keyboard listeners from the host. *)
Inductive KeyEvent :=
| KeyDown (e : KeyboardEvent)
| KeyUp.

Definition key_event (T : KeyTables) (ev : KeyEvent) (m : Machine) : Machine :=
  match ev with
  | KeyDown e => keydown T e m
  | KeyUp => keyup m
  end.

Definition key_events (T : KeyTables) (evs : list KeyEvent) (m : Machine)
  : Machine :=
  foldl (fun m ev => key_event T ev m) m evs.

(** A key press that ends a blocking read: a key other than Shift, Ctrl
    and Alt (key codes 16 to 18), pressed while the document body has the
    focus. *)
Definition releases (ev : KeyEvent) : Prop :=
  match ev with
  | KeyDown e => bodyIsActive e = true /\ isCaseModifyKeycode (keyCode e) = true
  | KeyUp => False
  end.

(** A blocking read is pending: the CPU is paused and the closure of
    [keyListener] is installed. *)
Definition waiting_for_key (keymapTable : option KeymapTable) (m : Machine)
  : Prop :=
  pause m = true
  /\ Keymap.callback (keymap m) = Some (ReadKeyInto keymapTable).

(** INT 16h, AH=0 or 10h with no key pressed, as the specification words
    it: the handler pauses, and the next key press delivers its code in AX
    and clears [pause]. *)
Definition int16_wait_as_specified (T : KeyTables) (V : VideoImports)
    (m : Machine) (e : KeyboardEvent) : Prop :=
  Regs.ah (regs m) = 0x0 \/ Regs.ah (regs m) = 0x10 ->
  Keymap.key (keymap m) = None ->
  exists m',
    bios_interrupt T V 0x16 m = Handled (Returns m')
    /\ pause m' = true
    /\ pause (keydown T e m') = false
    /\ forall mapping,
         wait_table T (Regs.ah (regs m)) !! keyCode e = Some mapping ->
         Regs.ax (regs (keydown T e m')) = Regs.u16 (scan_code mapping (shiftKey e)).

(** * Properties *)

(** ** Bits of the register file *)

(** Equalities between masks and shifts, bit by bit. *)
Ltac mask_names :=
  change 0xffff with (Z.ones 16) in *;
  change 0xff00 with (Z.shiftl (Z.ones 8) 8) in *;
  change 0xff with (Z.ones 8) in *;
  change 0xc0 with (Z.shiftl (Z.ones 2) 6) in *;
  change 0x3f with (Z.ones 6) in *.

Lemma testbit_shiftl a n i :
  0 <= n -> Z.testbit (Z.shiftl a n) i = Z.testbit a (i - n).
Proof.
  intros. destruct (Z.ltb_spec i 0).
  - now rewrite !Z.testbit_neg_r by lia.
  - now apply Z.shiftl_spec.
Qed.

Lemma testbit_shiftr a n i :
  Z.testbit (Z.shiftr a n) i = (0 <=? i) && Z.testbit a (i + n).
Proof.
  destruct (Z.leb_spec 0 i).
  - now rewrite Z.shiftr_spec.
  - now rewrite Z.testbit_neg_r by lia.
Qed.

Ltac bit_rewrite :=
  repeat first
    [ rewrite Z.land_spec | rewrite Z.lor_spec | rewrite Z.bits_0
    | rewrite testbit_shiftr | rewrite testbit_shiftl by lia
    | rewrite Z.testbit_ones by lia ].

Ltac bit_cases :=
  repeat match goal with
    | |- context [?a <? ?b] => destruct (Z.ltb_spec a b)
    | |- context [?a <=? ?b] => destruct (Z.leb_spec a b)
    end;
  repeat (progress (cbn [andb orb];
                    rewrite ?andb_true_r, ?andb_false_r, ?orb_false_r, ?orb_true_r;
                    repeat match goal with
                      | |- context [Z.testbit ?a ?i] =>
                          rewrite (Z.testbit_neg_r a i) by lia
                      end));
  try reflexivity; try lia;
  try (f_equal; lia).

Ltac bitwise :=
  mask_names; apply Z.bits_inj'; intros ? ?; bit_rewrite; bit_cases.

Module RegsFacts.
Import Regs.

Lemma u16_mod v : u16 v = v mod 65536.
Proof. unfold u16. mask_names. now rewrite Z.land_ones by lia. Qed.

Lemma lo8_mod v : lo8 v = v mod 256.
Proof. unfold lo8. mask_names. now rewrite Z.land_ones by lia. Qed.

Lemma hi8_mod v : hi8 v = (v / 256) mod 256.
Proof.
  unfold hi8. mask_names.
  now rewrite Z.land_ones, Z.shiftr_div_pow2 by lia.
Qed.

Lemma u16_range v : 0 <= u16 v < 65536.
Proof. rewrite u16_mod. apply Z.mod_pos_bound. lia. Qed.

Lemma lo8_range v : 0 <= lo8 v < 256.
Proof. rewrite lo8_mod. apply Z.mod_pos_bound. lia. Qed.

Lemma hi8_range v : 0 <= hi8 v < 256.
Proof. rewrite hi8_mod. apply Z.mod_pos_bound. lia. Qed.

Lemma lo8_idem v : lo8 (lo8 v) = lo8 v.
Proof. unfold lo8. bitwise. Qed.

Lemma lo8_hi8 v : lo8 (hi8 v) = hi8 v.
Proof. unfold lo8, hi8. bitwise. Qed.

Lemma lo8_small v : 0 <= v < 256 -> lo8 v = v.
Proof. intros. rewrite lo8_mod. now apply Z.mod_small. Qed.

Lemma u16_small v : 0 <= v < 65536 -> u16 v = v.
Proof. intros. rewrite u16_mod. now apply Z.mod_small. Qed.

Lemma hi8_u16_with_hi8 v b : hi8 (u16 (with_hi8 v b)) = lo8 b.
Proof. unfold hi8, u16, with_hi8, lo8. bitwise. Qed.

Lemma lo8_u16_with_hi8 v b : lo8 (u16 (with_hi8 v b)) = lo8 v.
Proof. unfold hi8, u16, with_hi8, lo8. bitwise. Qed.

Lemma hi8_u16_with_lo8 v b : hi8 (u16 (with_lo8 v b)) = hi8 v.
Proof. unfold hi8, u16, with_lo8, lo8. bitwise. Qed.

Lemma lo8_u16_with_lo8 v b : lo8 (u16 (with_lo8 v b)) = lo8 b.
Proof. unfold hi8, u16, with_lo8, lo8. bitwise. Qed.

Lemma ah_set_ah v r : ah (set_ah v r) = lo8 v.
Proof. apply hi8_u16_with_hi8. Qed.

Lemma al_set_ah v r : al (set_ah v r) = al r.
Proof. apply lo8_u16_with_hi8. Qed.

Lemma ah_set_al v r : ah (set_al v r) = ah r.
Proof. apply hi8_u16_with_lo8. Qed.

Lemma al_set_al v r : al (set_al v r) = lo8 v.
Proof. apply lo8_u16_with_lo8. Qed.

Lemma dh_set_dh v r : dh (set_dh v r) = lo8 v.
Proof. apply hi8_u16_with_hi8. Qed.

Lemma dl_set_dh v r : dl (set_dh v r) = dl r.
Proof. apply lo8_u16_with_hi8. Qed.

Lemma dh_set_dl v r : dh (set_dl v r) = dh r.
Proof. apply hi8_u16_with_lo8. Qed.

Lemma dl_set_dl v r : dl (set_dl v r) = lo8 v.
Proof. apply lo8_u16_with_lo8. Qed.

Lemma ax_set_ax v r : ax (set_ax v r) = u16 v.
Proof. unfold ax, set_ax, u16. cbn. bitwise. Qed.

Lemma flag_set_flag_1 bit r : 0 <= bit -> flag bit (set_flag bit 1 r) = 1.
Proof. intros. unfold flag, set_flag. cbn. now rewrite Z.setbit_eq. Qed.

Lemma flag_set_flag_0 bit r : flag bit (set_flag bit 0 r) = 0.
Proof. unfold flag, set_flag. cbn. now rewrite Z.clearbit_eq. Qed.

Lemma flag_set_flag_other bit bit' v r :
  0 <= bit' -> bit' <> bit -> flag bit (set_flag bit' v r) = flag bit r.
Proof.
  intros. unfold flag, set_flag. cbn.
  destruct (Z.odd v); [now rewrite Z.setbit_neq | now rewrite Z.clearbit_neq].
Qed.

End RegsFacts.

(** ** Byte buffers and the copy loop *)

Section BufferFacts.
Implicit Types (this target chunk : list Z).

Lemma byteAt_lookup b k : 0 <= k -> byteAt b k = b !! Z.to_nat k.
Proof.
  intros. unfold byteAt. destruct (Z.ltb_spec k 0); [lia | reflexivity].
Qed.

Lemma byteAt_neg b k : k < 0 -> byteAt b k = None.
Proof.
  intros. unfold byteAt. destruct (Z.ltb_spec k 0); [reflexivity | lia].
Qed.

Lemma length_subarray this s e :
  0 <= s -> s <= e -> e <= byteLength this ->
  Z.of_nat (length (subarray this s e)) = e - s.
Proof.
  unfold subarray, byteLength. intros.
  rewrite length_take, length_drop. lia.
Qed.

Lemma byteAt_subarray this s e j :
  0 <= s -> 0 <= j < e - s -> byteAt (subarray this s e) j = byteAt this (s + j).
Proof.
  intros. rewrite !byteAt_lookup by lia. unfold subarray.
  rewrite lookup_take_lt by lia. rewrite lookup_drop. f_equal. lia.
Qed.

Lemma length_set_bytes target chunk a :
  0 <= a -> a + Z.of_nat (length chunk) <= byteLength target ->
  length (set_bytes target chunk a) = length target.
Proof.
  unfold set_bytes, byteLength. intros.
  rewrite !length_app, length_take, length_drop. lia.
Qed.

Lemma byteAt_set_bytes target chunk a k :
  0 <= a -> a + Z.of_nat (length chunk) <= byteLength target ->
  byteAt (set_bytes target chunk a) k =
    if (a <=? k) && (k <? a + Z.of_nat (length chunk))
    then byteAt chunk (k - a) else byteAt target k.
Proof.
  unfold byteLength. intros Ha Hfit.
  destruct (Z.ltb_spec k 0) as [Hk|Hk].
  { rewrite !byteAt_neg by lia.
    destruct (Z.leb_spec a k); [lia | reflexivity]. }
  unfold set_bytes. rewrite !byteAt_lookup by lia.
  destruct (Z.leb_spec a k) as [Hak|Hak]; cbn [andb].
  - rewrite lookup_app_r by (rewrite length_take; lia).
    rewrite length_take.
    replace (Z.to_nat k - Z.to_nat a `min` length target)%nat
      with (Z.to_nat (k - a)) by lia.
    destruct (Z.ltb_spec k (a + Z.of_nat (length chunk))).
    + rewrite lookup_app_l by lia. now rewrite byteAt_lookup by lia.
    + rewrite lookup_app_r by lia. rewrite lookup_drop.
      rewrite byteAt_lookup by lia. f_equal. lia.
  - rewrite lookup_app_l by (rewrite length_take; lia).
    rewrite ?byteAt_lookup by lia. now rewrite lookup_take_lt by lia.
Qed.

(** A copy of a range that lies inside both buffers stores it whole. *)
Lemma Buffer_copy_within this target ts s e :
  0 <= ts -> 0 <= s -> s < e -> e <= byteLength this ->
  ts + (e - s) <= byteLength target ->
  Buffer_copy this target ts s e
    = Returns (set_bytes target (subarray this s e) ts).
Proof.
  intros. unfold Buffer_copy.
  destruct (Z.leb_spec (byteLength target) ts); [lia|].
  destruct (Z.ltb_spec 0 e); [|lia].
  destruct (Z.ltb_spec e s); [lia|]. cbn [andb].
  destruct (Z.eqb_spec e s); [lia|].
  destruct (Z.eqb_spec (byteLength target) 0); [lia|].
  destruct (Z.eqb_spec (byteLength this) 0); [lia|]. cbn [orb].
  destruct (Z.ltb_spec ts 0); [lia|].
  destruct (Z.ltb_spec s 0); [lia|].
  destruct (Z.leb_spec (byteLength this) s); [lia|]. cbn [orb].
  destruct (Z.ltb_spec e 0); [lia|].
  destruct (Z.ltb_spec (byteLength this) e); [lia|].
  destruct (Z.ltb_spec (byteLength target - ts) (e - s)); [lia|].
  reflexivity.
Qed.

(** The loop's call never raises once the destination fits: the end
    index it passes is already clamped to the source. *)
Lemma Buffer_copy_clamped this target ts s size :
  0 <= ts -> 0 <= s -> 0 < size -> ts + size <= byteLength target ->
  exists target',
    Buffer_copy this target ts s (Z.min (s + size) (byteLength this))
      = Returns target'
    /\ length target' = length target.
Proof.
  intros Hts Hs Hsize Hfit. unfold Buffer_copy.
  assert (0 <= byteLength this) by (unfold byteLength; lia).
  set (e := Z.min (s + size) (byteLength this)).
  assert (He : e <= byteLength this) by lia.
  assert (He' : e <= s + size) by lia.
  destruct (Z.leb_spec (byteLength target) ts); [lia|].
  destruct (Z.ltb_spec 0 e), (Z.ltb_spec e s); cbn [andb];
    try (rewrite Z.eqb_refl; eauto; fail).
  all: destruct (Z.eqb_spec e s); [eauto|].
  all: destruct (Z.eqb_spec (byteLength target) 0); [lia|].
  all: destruct (Z.eqb_spec (byteLength this) 0); cbn [orb]; [eauto|].
  all: try lia.
  destruct (Z.ltb_spec ts 0); [lia|].
  destruct (Z.ltb_spec s 0); [lia|].
  destruct (Z.leb_spec (byteLength this) s); [lia|]. cbn [orb].
  destruct (Z.ltb_spec e 0); [lia|].
  destruct (Z.ltb_spec (byteLength this) e); [lia|].
  destruct (Z.ltb_spec (byteLength target - ts) (e - s)); [lia|].
  eexists. split; [reflexivity|].
  apply length_set_bytes; [lia|].
  rewrite length_subarray by lia. lia.
Qed.

End BufferFacts.

Section CopyLoop.
Variables (buffer : list Z) (src dest sectorSize : Z).
Hypothesis dest_nonneg : 0 <= dest.
Hypothesis sectorSize_pos : 0 < sectorSize.

(** Every sector inside both bounds: the loop runs to its end without
    the error flag, and the memory holds the sectors in order. *)
Lemma copy_sectors_within n : forall i memory,
  0 <= i ->
  (forall j, i <= j < i + Z.of_nat n ->
     sector_within memory buffer src dest sectorSize j) ->
  exists memory',
    copy_sectors n i buffer src dest sectorSize memory = Returns (memory', false)
    /\ length memory' = length memory
    /\ forall k,
         byteAt memory' k =
           if (dest + i * sectorSize <=? k)
              && (k <? dest + (i + Z.of_nat n) * sectorSize)
           then byteAt buffer (src + (k - dest))
           else byteAt memory k.
Proof.
  induction n as [|n IH]; intros i memory Hi Hin.
  - exists memory. repeat split. intros k.
    destruct (Z.leb_spec (dest + i * sectorSize) k),
      (Z.ltb_spec k (dest + (i + Z.of_nat 0) * sectorSize));
      cbn [andb]; try reflexivity; lia.
  - destruct (Hin i ltac:(lia)) as (Hd & Hs0 & Hs).
    cbn [copy_sectors].
    destruct (Z.ltb_spec (byteLength memory) (dest + i * sectorSize + sectorSize));
      [lia|].
    rewrite Z.min_l by lia.
    rewrite Buffer_copy_within by lia.
    cbn [mbind Outcome_bind].
    destruct (Z.ltb_spec (byteLength buffer) (src + i * sectorSize + sectorSize));
      [lia|].
    set (memory1 := set_bytes memory _ _).
    assert (Hlen : Z.of_nat (length (subarray buffer (src + i * sectorSize)
                              (src + i * sectorSize + sectorSize))) = sectorSize).
    { rewrite length_subarray; lia. }
    assert (Hlen1 : length memory1 = length memory).
    { apply length_set_bytes; lia. }
    destruct (IH (i + 1) memory1 ltac:(lia)) as (memory' & Hrun & Hlen' & Hbytes).
    { intros j Hj. destruct (Hin j ltac:(lia)) as (? & ? & ?).
      unfold sector_within, byteLength in *. rewrite Hlen1. lia. }
    exists memory'. split; [exact Hrun|]. split; [congruence|].
    intros k. rewrite Hbytes. unfold memory1.
    rewrite byteAt_set_bytes by lia. rewrite Hlen.
    destruct (Z.leb_spec (dest + (i + 1) * sectorSize) k),
      (Z.ltb_spec k (dest + (i + 1 + Z.of_nat n) * sectorSize)),
      (Z.leb_spec (dest + i * sectorSize) k),
      (Z.ltb_spec k (dest + i * sectorSize + sectorSize)),
      (Z.ltb_spec k (dest + (i + Z.of_nat (S n)) * sectorSize));
      cbn [andb]; try reflexivity; try lia.
    rewrite byteAt_subarray by lia. f_equal. lia.
Qed.

(** Some sector past a bound, and the source offset not negative unless
    the very next sector is past the memory: the loop stops with the
    error flag and raises nothing. *)
Lemma copy_sectors_overflow n : forall i memory,
  0 <= i ->
  0 <= src \/ byteLength memory < dest + i * sectorSize + sectorSize ->
  (exists j, i <= j < i + Z.of_nat n
     /\ sector_overflows memory buffer src dest sectorSize j) ->
  exists memory',
    copy_sectors n i buffer src dest sectorSize memory = Returns (memory', true)
    /\ length memory' = length memory.
Proof.
  induction n as [|n IH]; intros i memory Hi Hsrc (j & Hj & Hover).
  - lia.
  - cbn [copy_sectors].
    destruct (Z.ltb_spec (byteLength memory) (dest + i * sectorSize + sectorSize));
      [eauto|].
    assert (Hsrc' : 0 <= src) by (destruct Hsrc; lia).
    destruct (Buffer_copy_clamped buffer memory (dest + i * sectorSize)
                (src + i * sectorSize) sectorSize)
      as (memory1 & Hcopy & Hlen1); try nia.
    rewrite Hcopy. cbn [mbind Outcome_bind].
    destruct (Z.ltb_spec (byteLength buffer) (src + i * sectorSize + sectorSize));
      [eauto|].
    destruct (IH (i + 1) memory1 ltac:(lia) (or_introl Hsrc'))
      as (memory' & Hrun & Hlen').
    { exists j. unfold sector_overflows, byteLength in *. rewrite Hlen1.
      destruct (Z.eq_dec j i) as [->|]; [lia|]. split; [lia | exact Hover]. }
    exists memory'. split; [exact Hrun | congruence].
Qed.

End CopyLoop.

(** ** INT 13h *)

Lemma to_int32_small x : - 2 ^ 31 <= x < 2 ^ 31 -> to_int32 x = x.
Proof. intros. unfold to_int32. rewrite Z.mod_small; lia. Qed.

Section ReadRequest.
Import Regs RegsFacts.

Lemma cx_split r : cx r = 256 * ch r + cl r.
Proof.
  unfold cx, ch, cl. rewrite u16_mod, hi8_mod, lo8_mod.
  pose proof (Z.mod_pos_bound (r_cx r) 65536).
  pose proof (Z.mod_pos_bound (r_cx r) 256).
  pose proof (Z.mod_pos_bound (r_cx r / 256) 256).
  Z.div_mod_to_equations. lia.
Qed.

Lemma read_cylinder_low r :
  js_shr (js_and (cx r) 0xff00) 8 = ch r.
Proof. unfold js_shr, js_and, cx, ch, u16, hi8. change (8 mod 32) with 8. bitwise. Qed.

Lemma read_cylinder_high r :
  js_shl (js_and (cx r) 0xc0) 2 = 256 * (cl r / 64).
Proof.
  unfold js_shl, js_and, cx, cl, u16, lo8. change (2 mod 32) with 2.
  assert (E : Z.shiftl (Z.land (Z.land (r_cx r) 0xffff) 0xc0) 2
              = Z.shiftl (Z.land (Z.shiftr (Z.land (r_cx r) 0xff) 6) (Z.ones 2)) 8).
  { bitwise. }
  rewrite E. change 0xff with (Z.ones 8).
  rewrite !Z.land_ones, Z.shiftr_div_pow2, Z.shiftl_mul_pow2 by lia.
  pose proof (Z.mod_pos_bound (r_cx r) (2 ^ 8)).
  assert (0 <= r_cx r mod 2 ^ 8 / 2 ^ 6 < 4).
  { split; [apply Z.div_pos; lia | apply Z.div_lt_upper_bound; lia]. }
  rewrite (Z.mod_small _ (2 ^ 2)) by lia.
  rewrite to_int32_small by lia. change (2 ^ 8) with 256. change (2 ^ 6) with 64.
  lia.
Qed.

(** Cylinder: CH below, bits 7..6 of CL as bits 9..8. *)
Lemma read_cylinder_spec r : read_cylinder r = ch r + 256 * (cl r / 64).
Proof.
  unfold read_cylinder. rewrite read_cylinder_low, read_cylinder_high.
  unfold js_or. rewrite <- Z.add_lor_land.
  assert (E : Z.land (ch r) (256 * (cl r / 64)) = 0).
  { rewrite Z.mul_comm. change 256 with (2 ^ 8).
    rewrite <- Z.shiftl_mul_pow2 by lia. unfold ch, hi8. bitwise. }
  lia.
Qed.

(** Sector: bits 5..0 of CL. *)
Lemma read_sector_spec r : read_sector r = cl r mod 64.
Proof.
  unfold read_sector, js_and. change 0x3f with (Z.ones 6).
  now rewrite Z.land_ones by lia.
Qed.

End ReadRequest.

(** The services the dispatcher selects. *)
Section Dispatch.
Variables (T : KeyTables) (V : VideoImports) (m : Machine).

Lemma dispatch_int13_reset :
  Regs.ah (regs m) = 0x0 ->
  bios_interrupt T V 0x13 m = Handled (Returns (int13_reset m)).
Proof. intros H. unfold bios_interrupt. now rewrite H. Qed.

Lemma dispatch_int13_read :
  Regs.ah (regs m) = 0x2 ->
  bios_interrupt T V 0x13 m = Handled (int13_read m).
Proof. intros H. unfold bios_interrupt. now rewrite H. Qed.

Lemma dispatch_int15_wait :
  Regs.ah (regs m) = 0x86 ->
  bios_interrupt T V 0x15 m = Handled (Returns (int15_wait m)).
Proof. intros H. unfold bios_interrupt. now rewrite H. Qed.

Lemma dispatch_int16_wait_key :
  Regs.ah (regs m) = 0x0 ->
  bios_interrupt T V 0x16 m = Handled (Returns (int16_wait_key T m)).
Proof. intros H. unfold bios_interrupt. now rewrite H. Qed.

Lemma dispatch_int16_wait_key_at :
  Regs.ah (regs m) = 0x10 ->
  bios_interrupt T V 0x16 m = Handled (Returns (int16_wait_key_at T m)).
Proof. intros H. unfold bios_interrupt. now rewrite H. Qed.

Lemma dispatch_int16_status :
  Regs.ah (regs m) = 0x1 ->
  bios_interrupt T V 0x16 m = Handled (Returns (int16_status T m)).
Proof. intros H. unfold bios_interrupt. now rewrite H. Qed.

Lemma dispatch_int10_set_cursor :
  Regs.ah (regs m) = 0x2 ->
  bios_interrupt T V 0x10 m = Handled (Returns (int10_set_cursor m)).
Proof. intros H. unfold bios_interrupt. now rewrite H. Qed.

Lemma dispatch_int10_get_cursor :
  Regs.ah (regs m) = 0x3 ->
  bios_interrupt T V 0x10 m = Handled (Returns (int10_get_cursor m)).
Proof. intros H. unfold bios_interrupt. now rewrite H. Qed.

Lemma dispatch_int10_teletype :
  Regs.ah (regs m) = 0xe ->
  bios_interrupt T V 0x10 m = Handled (int10_teletype V m).
Proof. intros H. unfold bios_interrupt. now rewrite H. Qed.

Lemma dispatch_int10_extensions :
  Regs.ah (regs m) = 0x11 ->
  bios_interrupt T V 0x10 m = Handled (Returns (int10_extensions V m)).
Proof. intros H. unfold bios_interrupt. now rewrite H. Qed.

End Dispatch.

(** Reads of the register file after the writes the handlers make. *)
Section RegisterWrites.
Import Regs RegsFacts.

Lemma ah_set_cf v r : ah (set_cf v r) = ah r.
Proof. reflexivity. Qed.

Lemma cf_set_ah v r : cf (set_ah v r) = cf r.
Proof. reflexivity. Qed.

Lemma cf_set_cf_1 r : cf (set_cf 1 r) = 1.
Proof. now apply flag_set_flag_1. Qed.

Lemma cf_set_cf_0 r : cf (set_cf 0 r) = 0.
Proof. apply flag_set_flag_0. Qed.

End RegisterWrites.

(** C10. INT 13h with AH=0 (reset): when DL names an attached drive the
    handler leaves AH=0 and CF=0; when DL names no attached drive it
    leaves AH=6 and CF=1. *)
Theorem int13_reset_reports_drive (T : KeyTables) (V : VideoImports) (m : Machine) :
  Regs.ah (regs m) = 0x0 ->
  exists m',
    bios_interrupt T V 0x13 m = Handled (Returns m')
    /\ (is_Some (drives m !! Regs.dl (regs m)) ->
        Regs.ah (regs m') = 0x0 /\ Regs.cf (regs m') = 0)
    /\ (drives m !! Regs.dl (regs m) = None ->
        Regs.ah (regs m') = 0x6 /\ Regs.cf (regs m') = 1).
Proof.
  intros Hah. exists (int13_reset m).
  split; [now apply dispatch_int13_reset|].
  unfold int13_reset.
  split.
  - intros [d Hd]. rewrite Hd. cbn [regs set_regs set_cpu cpu CPU.regs].
    rewrite ah_set_cf, RegsFacts.ah_set_ah, cf_set_cf_0. now split.
  - intros Hd. rewrite Hd. cbn [regs set_regs set_cpu cpu CPU.regs].
    rewrite ah_set_cf, RegsFacts.ah_set_ah, cf_set_cf_1. now split.
Qed.

Lemma int13_reset_reports_drive_witness :
  let m := booted (regs_of 0 0 0 0) [] None in
  Regs.ah (regs m) = 0x0
  /\ exists m',
       bios_interrupt sample_tables sample_video 0x13 m = Handled (Returns m')
       /\ Regs.ah (regs m') = 0x0 /\ Regs.cf (regs m') = 0.
Proof.
  cbv zeta. split; [reflexivity|].
  destruct (int13_reset_reports_drive sample_tables sample_video
              (booted (regs_of 0 0 0 0) [] None) eq_refl)
    as (m' & Hrun & Hattached & _).
  exists m'. split; [exact Hrun|].
  apply Hattached. now eexists.
Defined.

Lemma read_dest_range r : 0 <= read_dest r < 0x100000.
Proof. unfold read_dest, getMemAddress. apply Z.mod_pos_bound. lia. Qed.

Lemma medium_after_assign m drive :
  Drive.buffer
    (match Drive.buffer drive with
     | None => Drive.set_buffer (device m) drive
     | Some _ => drive
     end) = medium m drive.
Proof. unfold medium. now destruct (Drive.buffer drive) eqn:E. Qed.

(** Service 2h on a transfer that lies inside both bounds. *)
Lemma int13_read_within m drive buffer :
  drives m !! Regs.dl (regs m) = Some drive ->
  medium m drive = Some buffer ->
  0 < Drive.sector (Drive.info drive) ->
  transfer_within (mem m) buffer (read_src (regs m) drive) (read_dest (regs m))
    (Drive.sector (Drive.info drive)) (Regs.al (regs m)) ->
  exists m',
    int13_read m = Returns m'
    /\ Regs.cf (regs m') = 0 /\ Regs.ah (regs m') = 0
    /\ length (mem m') = length (mem m)
    /\ forall k,
         byteAt (mem m') k =
           if (read_dest (regs m) <=? k)
              && (k <? read_dest (regs m)
                       + Regs.al (regs m) * Drive.sector (Drive.info drive))
           then byteAt buffer (read_src (regs m) drive + (k - read_dest (regs m)))
           else byteAt (mem m) k.
Proof.
  intros Hdrive Hmedium Hsize Hin.
  pose proof (read_dest_range (regs m)) as Hdest.
  pose proof (RegsFacts.lo8_range (Regs.r_ax (regs m))) as Hal.
  fold (Regs.al (regs m)) in Hal.
  destruct (copy_sectors_within buffer (read_src (regs m) drive)
              (read_dest (regs m)) (Drive.sector (Drive.info drive))
              ltac:(lia) Hsize (Z.to_nat (Regs.al (regs m))) 0 (mem m) ltac:(lia))
    as (memory' & Hrun & Hlen & Hbytes).
  { intros j Hj. apply Hin. lia. }
  unfold int13_read. rewrite Hdrive. cbv zeta.
  rewrite medium_after_assign, Hmedium.
  change (mem (set_drives _ m)) with (mem m).
  change (regs (set_drives _ m)) with (regs m).
  rewrite Hrun. cbn [mbind mret Outcome_bind Outcome_ret].
  eexists. split; [reflexivity|].
  cbn [regs mem set_regs set_mem set_cpu cpu CPU.regs CPU.mem].
  rewrite cf_set_ah, cf_set_cf_0, RegsFacts.ah_set_ah.
  repeat split; try assumption.
  intros k. rewrite Hbytes.
  rewrite Z2Nat.id by lia. now rewrite Z.mul_0_l, Z.add_0_r, Z.add_0_l.
Qed.

(** Service 2h on a transfer that overflows a bound, from a source
    offset that is not negative. *)
Lemma int13_read_overflow m drive buffer :
  drives m !! Regs.dl (regs m) = Some drive ->
  medium m drive = Some buffer ->
  0 < Drive.sector (Drive.info drive) ->
  0 <= read_src (regs m) drive ->
  transfer_overflows (mem m) buffer (read_src (regs m) drive)
    (read_dest (regs m)) (Drive.sector (Drive.info drive)) (Regs.al (regs m)) ->
  exists m',
    int13_read m = Returns m'
    /\ Regs.cf (regs m') = 1 /\ Regs.ah (regs m') = 0xbb
    /\ length (mem m') = length (mem m).
Proof.
  intros Hdrive Hmedium Hsize Hsrc (j & Hj & Hover).
  pose proof (read_dest_range (regs m)) as Hdest.
  destruct (copy_sectors_overflow buffer (read_src (regs m) drive)
              (read_dest (regs m)) (Drive.sector (Drive.info drive))
              ltac:(lia) Hsize (Z.to_nat (Regs.al (regs m))) 0 (mem m)
              ltac:(lia) (or_introl Hsrc))
    as (memory' & Hrun & Hlen).
  { exists j. split; [lia | exact Hover]. }
  unfold int13_read. rewrite Hdrive. cbv zeta.
  rewrite medium_after_assign, Hmedium.
  change (mem (set_drives _ m)) with (mem m).
  change (regs (set_drives _ m)) with (regs m).
  rewrite Hrun. cbn [mbind mret Outcome_bind Outcome_ret].
  eexists. split; [reflexivity|].
  cbn [regs mem set_regs set_mem set_cpu cpu CPU.regs CPU.mem].
  rewrite cf_set_ah, cf_set_cf_1, RegsFacts.ah_set_ah.
  repeat split; assumption.
Qed.

(** Two runs of service 2h: one sector of a two-sector medium read to
    address 0 of a 1 KiB memory, and three sectors asked of it. *)
Example int13_read_one_sector :
  match int13_read (disk_machine 0x0201 0 0x0002 0 1024 2) with
  | Returns m' =>
      Regs.cf (regs m') = 0 /\ Regs.ah (regs m') = 0
      /\ mem m' = repeat 2 512 ++ repeat 0 512
  | Throws _ => False
  end.
Proof. vm_compute. repeat split. Qed.

Example int13_read_past_the_medium :
  match int13_read (disk_machine 0x0203 0 0x0001 0 2048 2) with
  | Returns m' =>
      Regs.cf (regs m') = 1 /\ Regs.ah (regs m') = 0xbb
      /\ mem m' = repeat 1 512 ++ repeat 2 512 ++ repeat 0 1024
  | Throws _ => False
  end.
Proof. vm_compute. repeat split. Qed.

(** Two requests on which the service raises: a drive number that is
    not in the table, and sector number 0 of cylinder 0, head 0, whose
    source offset is negative. *)
Example int13_read_unattached_drive :
  int13_read (disk_machine 0x0201 0 0x0001 0x0080 1024 2) = Throws TypeError.
Proof. reflexivity. Qed.

Example int13_read_sector_zero :
  int13_read (disk_machine 0x0201 0 0x0000 0 1024 2) = Throws RangeError.
Proof. vm_compute. reflexivity. Qed.

(** INT 13h with AH=2 (read sectors), for a drive DL that is attached
    and has a medium to read, from a source offset that is not negative:
    when every requested sector lies inside the CPU memory at the
    destination and inside the drive buffer at the source, the handler
    clears CF and zeroes AH; when some requested sector runs past the end
    of the memory or of the drive buffer, the handler sets CF=1 and
    AH=0xBB.  The memory bound is [cpu.mem.byteLength], 1 MiB on the
    machine of the specification. *)
Theorem int13_read_status (T : KeyTables) (V : VideoImports) (m : Machine)
    (drive : Drive.t) (buffer : list Z) :
  Regs.ah (regs m) = 0x2 ->
  drives m !! Regs.dl (regs m) = Some drive ->
  medium m drive = Some buffer ->
  0 < Drive.sector (Drive.info drive) ->
  0 <= read_src (regs m) drive ->
  (transfer_within (mem m) buffer (read_src (regs m) drive)
     (read_dest (regs m)) (Drive.sector (Drive.info drive)) (Regs.al (regs m)) ->
   exists m',
     bios_interrupt T V 0x13 m = Handled (Returns m')
     /\ Regs.cf (regs m') = 0 /\ Regs.ah (regs m') = 0)
  /\ (transfer_overflows (mem m) buffer (read_src (regs m) drive)
        (read_dest (regs m)) (Drive.sector (Drive.info drive)) (Regs.al (regs m)) ->
      exists m',
        bios_interrupt T V 0x13 m = Handled (Returns m')
        /\ Regs.cf (regs m') = 1 /\ Regs.ah (regs m') = 0xbb).
Proof.
  intros Hah Hdrive Hmedium Hsize Hsrc.
  rewrite dispatch_int13_read by assumption.
  split.
  - intros Hin.
    destruct (int13_read_within m drive buffer Hdrive Hmedium Hsize Hin)
      as (m' & -> & Hcf & Hah' & _).
    now exists m'.
  - intros Hover.
    destruct (int13_read_overflow m drive buffer Hdrive Hmedium Hsize Hsrc Hover)
      as (m' & -> & Hcf & Hah' & _).
    now exists m'.
Qed.

Lemma int13_read_status_witness :
  let m := disk_machine 0x0204 0 0x0002 0 4096 2 in
  let drive := Drive.Make None 0 (Drive.MakeInfo 512 18 2) in
  Regs.ah (regs m) = 0x2
  /\ drives m !! Regs.dl (regs m) = Some drive
  /\ medium m drive = Some (disk_image 2)
  /\ 0 < Drive.sector (Drive.info drive)
  /\ read_src (regs m) drive = 512
  /\ exists m',
       bios_interrupt sample_tables sample_video 0x13 m = Handled (Returns m')
       /\ Regs.cf (regs m') = 1 /\ Regs.ah (regs m') = 0xbb.
Proof.
  cbv zeta. do 5 (split; [reflexivity|]).
  destruct (int13_read_status sample_tables sample_video
              (disk_machine 0x0204 0 0x0002 0 4096 2)
              (Drive.Make None 0 (Drive.MakeInfo 512 18 2)) (disk_image 2)
              eq_refl eq_refl eq_refl eq_refl) as [_ Hover].
  - discriminate.
  - apply Hover. exists 3. split; [split; [discriminate | reflexivity]|].
    right. reflexivity.
Defined.

(** The first call of the copy loop from a source offset before the
    start of a medium that is not empty, with room for one sector at the
    destination: the copy is made before the source bound is tested, and
    it raises. *)
Lemma copy_sectors_before_medium (buffer : list Z) (src dest sectorSize : Z)
    (n : nat) (memory : list Z) :
  0 <= dest -> 0 < sectorSize -> src < 0 -> 0 < byteLength buffer ->
  dest + sectorSize <= byteLength memory ->
  copy_sectors (S n) 0 buffer src dest sectorSize memory = Throws RangeError.
Proof.
  intros Hdest Hsize Hsrc Hbuffer Hroom. cbn [copy_sectors].
  rewrite Z.mul_0_l, !Z.add_0_r.
  destruct (Z.ltb_spec (byteLength memory) (dest + sectorSize)); [lia|].
  unfold Buffer_copy.
  set (e := Z.min (src + sectorSize) (byteLength buffer)).
  assert (He : src < e) by lia.
  destruct (Z.leb_spec (byteLength memory) dest); [lia|].
  destruct (Z.ltb_spec e src); [lia|]. rewrite andb_false_r.
  destruct (Z.eqb_spec e src); [lia|].
  destruct (Z.eqb_spec (byteLength memory) 0); [lia|].
  destruct (Z.eqb_spec (byteLength buffer) 0); [lia|]. cbn [orb].
  destruct (Z.ltb_spec dest 0); [lia|].
  destruct (Z.ltb_spec src 0); [|lia]. reflexivity.
Qed.

(** C2, where the handler departs from it.  INT 13h with AH=2 for a
    drive DL that is attached and has a medium that is not empty, a count
    AL of 1 or more and room in the memory for one sector at ES:BX: when
    the position asked for lies before the start of the medium (sector
    number 0 of cylinder 0, head 0), the transfer is outside the drive
    buffer, and the handler, instead of setting CF=1 and AH=0xBB, raises
    [RangeError] from its first copy and reports nothing. *)
Theorem int13_read_before_medium_raises (T : KeyTables) (V : VideoImports)
    (m : Machine) (drive : Drive.t) (buffer : list Z) :
  Regs.ah (regs m) = 0x2 ->
  drives m !! Regs.dl (regs m) = Some drive ->
  medium m drive = Some buffer ->
  0 < byteLength buffer ->
  0 < Drive.sector (Drive.info drive) ->
  1 <= Regs.al (regs m) ->
  read_src (regs m) drive < 0 ->
  read_dest (regs m) + Drive.sector (Drive.info drive) <= byteLength (mem m) ->
  ~ transfer_within (mem m) buffer (read_src (regs m) drive)
      (read_dest (regs m)) (Drive.sector (Drive.info drive)) (Regs.al (regs m))
  /\ bios_interrupt T V 0x13 m = Handled (Throws RangeError).
Proof.
  intros Hah Hdrive Hmedium Hbuffer Hsize Hal Hsrc Hroom.
  pose proof (read_dest_range (regs m)) as Hdest.
  split.
  - intros Hin. destruct (Hin 0 ltac:(lia)) as (_ & H0 & _). lia.
  - rewrite dispatch_int13_read by assumption.
    unfold int13_read. rewrite Hdrive. cbv zeta.
    rewrite medium_after_assign, Hmedium.
    change (mem (set_drives _ m)) with (mem m).
    change (regs (set_drives _ m)) with (regs m).
    destruct (Z.to_nat (Regs.al (regs m))) as [|n] eqn:Hn; [lia|].
    rewrite copy_sectors_before_medium by lia.
    reflexivity.
Qed.

Lemma int13_read_before_medium_raises_witness :
  let m := disk_machine 0x0204 0 0x0000 0 4096 2 in
  let drive := Drive.Make None 0 (Drive.MakeInfo 512 18 2) in
  drives m !! Regs.dl (regs m) = Some drive
  /\ medium m drive = Some (disk_image 2)
  /\ read_src (regs m) drive = -512
  /\ transfer_overflows (mem m) (disk_image 2) (read_src (regs m) drive)
       (read_dest (regs m)) 512 (Regs.al (regs m))
  /\ bios_interrupt sample_tables sample_video 0x13 m
     = Handled (Throws RangeError).
Proof.
  cbv zeta. do 3 (split; [reflexivity|]).
  split.
  - exists 3. split; [split; [discriminate | reflexivity]|].
    right. reflexivity.
  - apply (int13_read_before_medium_raises sample_tables sample_video
             (disk_machine 0x0204 0 0x0000 0 4096 2)
             (Drive.Make None 0 (Drive.MakeInfo 512 18 2)) (disk_image 2)
             eq_refl eq_refl eq_refl eq_refl eq_refl).
    + discriminate.
    + reflexivity.
    + discriminate.
Defined.

(** C3. INT 13h with AH=2 decodes the source position as cylinder = CH
    with bits 7..6 of CL as its two high bits, sector = bits 5..0 of CL
    (counted from 1), head = DH, drive = DL, count = AL; the source byte
    offset is ((cylinder*heads + DH)*sectors_per_track + sector - 1) *
    sector_size and the destination is the linear address of ES:BX.  A
    read that lies inside both bounds leaves, from that destination on,
    the AL sectors found at that offset of the buffer of drive DL. *)
Theorem int13_read_chs (T : KeyTables) (V : VideoImports) (m : Machine)
    (drive : Drive.t) (buffer : list Z) :
  Regs.ah (regs m) = 0x2 ->
  drives m !! Regs.dl (regs m) = Some drive ->
  medium m drive = Some buffer ->
  0 < Drive.sector (Drive.info drive) ->
  transfer_within (mem m) buffer (read_src (regs m) drive)
    (read_dest (regs m)) (Drive.sector (Drive.info drive)) (Regs.al (regs m)) ->
  let r := regs m in
  let cylinder := chs_cylinder (Regs.ch r) (Regs.cl r) in
  let sector := chs_sector (Regs.cl r) in
  let src := chs_offset drive cylinder (Regs.dh r) sector in
  let dest := getMemAddress (Regs.es r) (Regs.bx r) in
  let count := Regs.al r in
  read_cylinder r = cylinder
  /\ read_sector r = sector
  /\ read_src r drive = src
  /\ read_dest r = dest
  /\ exists m',
       bios_interrupt T V 0x13 m = Handled (Returns m')
       /\ forall k,
            byteAt (mem m') k =
              if (dest <=? k) && (k <? dest + count * Drive.sector (Drive.info drive))
              then byteAt buffer (src + (k - dest))
              else byteAt (mem m) k.
Proof.
  intros Hah Hdrive Hmedium Hsize Hin. cbv zeta.
  assert (Hsrc : read_src (regs m) drive
                 = chs_offset drive
                     (chs_cylinder (Regs.ch (regs m)) (Regs.cl (regs m)))
                     (Regs.dh (regs m)) (chs_sector (Regs.cl (regs m)))).
  { unfold read_src, chs_offset.
    now rewrite read_cylinder_spec, read_sector_spec. }
  split; [apply read_cylinder_spec|].
  split; [apply read_sector_spec|].
  split; [exact Hsrc|]. split; [reflexivity|].
  rewrite dispatch_int13_read by assumption.
  destruct (int13_read_within m drive buffer Hdrive Hmedium Hsize Hin)
    as (m' & -> & _ & _ & _ & Hbytes).
  exists m'. split; [reflexivity|].
  intros k. rewrite Hbytes, Hsrc. reflexivity.
Qed.

Lemma int13_read_chs_witness :
  let m := disk_machine 0x0201 0 0x0002 0 1024 2 in
  let drive := Drive.Make None 0 (Drive.MakeInfo 512 18 2) in
  let buffer := disk_image 2 in
  let r := regs m in
  let cylinder := chs_cylinder (Regs.ch r) (Regs.cl r) in
  let sector := chs_sector (Regs.cl r) in
  let src := chs_offset drive cylinder (Regs.dh r) sector in
  let dest := getMemAddress (Regs.es r) (Regs.bx r) in
  let count := Regs.al r in
  read_cylinder r = cylinder
  /\ read_sector r = sector
  /\ read_src r drive = src
  /\ read_dest r = dest
  /\ exists m',
       bios_interrupt sample_tables sample_video 0x13 m = Handled (Returns m')
       /\ forall k,
            byteAt (mem m') k =
              if (dest <=? k) && (k <? dest + count * Drive.sector (Drive.info drive))
              then byteAt buffer (src + (k - dest))
              else byteAt (mem m) k.
Proof.
  apply (int13_read_chs sample_tables sample_video
           (disk_machine 0x0201 0 0x0002 0 1024 2)
           (Drive.Make None 0 (Drive.MakeInfo 512 18 2)) (disk_image 2));
    try reflexivity.
  intros j Hj. change (0 <= j < 1) in Hj. assert (j = 0) as -> by lia.
  vm_compute. repeat split; discriminate.
Defined.

(** C4. With drive 0 attached with 512-byte sectors and the boot medium
    to read, INT 13h with AH=2, AL=1, CH=0, CL=1, DH=0, DL=0 and ES:BX at
    linear address 0x7E00 copies exactly the 512 bytes at LBA 0 of the
    drive to 0x7E00 and leaves CF=0 and AH=0.  The medium holds at least
    that sector and the memory reaches past 0x7E00 + 512, as the 1 MiB
    memory does. *)
Theorem int13_read_boot_sector (T : KeyTables) (V : VideoImports) (m : Machine)
    (drive : Drive.t) (buffer : list Z) :
  Regs.ah (regs m) = 0x2 ->
  Regs.al (regs m) = 1 ->
  Regs.ch (regs m) = 0 ->
  Regs.cl (regs m) = 1 ->
  Regs.dh (regs m) = 0 ->
  Regs.dl (regs m) = 0 ->
  getMemAddress (Regs.es (regs m)) (Regs.bx (regs m)) = 0x7E00 ->
  drives m !! 0 = Some drive ->
  Drive.sector (Drive.info drive) = 512 ->
  medium m drive = Some buffer ->
  512 <= byteLength buffer ->
  0x7E00 + 512 <= byteLength (mem m) ->
  exists m',
    bios_interrupt T V 0x13 m = Handled (Returns m')
    /\ Regs.cf (regs m') = 0 /\ Regs.ah (regs m') = 0
    /\ length (mem m') = length (mem m)
    /\ forall k,
         byteAt (mem m') k =
           if (0x7E00 <=? k) && (k <? 0x7E00 + 512)
           then byteAt buffer (k - 0x7E00)
           else byteAt (mem m) k.
Proof.
  intros Hah Hal Hch Hcl Hdh Hdl Hdest Hdrive Hsize Hmedium Hbuf Hmem.
  rewrite dispatch_int13_read by assumption.
  assert (Hsrc : read_src (regs m) drive = 0).
  { unfold read_src.
    rewrite read_cylinder_spec, read_sector_spec, Hch, Hcl, Hdh, Hsize.
    change (1 / 64) with 0. change (1 mod 64) with 1. lia. }
  destruct (int13_read_within m drive buffer) as (m' & -> & Hcf & Hah' & Hlen & Hbytes).
  - now rewrite Hdl.
  - assumption.
  - lia.
  - intros j Hj. unfold sector_within, read_dest.
    rewrite Hsrc, Hdest, Hsize. lia.
  - exists m'. repeat split; try assumption.
    intros k. rewrite Hbytes. unfold read_dest.
    rewrite Hsrc, Hdest, Hal, Hsize. reflexivity.
Qed.

Lemma int13_read_boot_sector_witness :
  let m := disk_machine 0x0201 0x7E00 0x0001 0 (Z.to_nat 0x8000) 1 in
  exists m',
    bios_interrupt sample_tables sample_video 0x13 m = Handled (Returns m')
    /\ Regs.cf (regs m') = 0 /\ Regs.ah (regs m') = 0
    /\ length (mem m') = length (mem m)
    /\ forall k,
         byteAt (mem m') k =
           if (0x7E00 <=? k) && (k <? 0x7E00 + 512)
           then byteAt (disk_image 1) (k - 0x7E00)
           else byteAt (mem m) k.
Proof.
  apply (int13_read_boot_sector sample_tables sample_video
           (disk_machine 0x0201 0x7E00 0x0001 0 (Z.to_nat 0x8000) 1)
           (Drive.Make None 0 (Drive.MakeInfo 512 18 2)) (disk_image 1));
    try reflexivity; vm_compute; discriminate.
Defined.

(** ** INT 15h *)

Lemma wait_count_js r :
  js_or (js_shl (Regs.cx r) 0xf) (Regs.dx r) = wait_count r.
Proof.
  unfold wait_count, js_or, js_shl. change (0xf mod 32) with 15.
  rewrite to_int32_small; [reflexivity|].
  pose proof (RegsFacts.u16_range (Regs.r_cx r)). fold (Regs.cx r) in *.
  rewrite Z.shiftl_mul_pow2 by lia. lia.
Qed.

(** The handler's test [miliseconds < 2] is a test of the count. *)
Lemma wait_too_short r :
  negb (Qle_bool 2 (wait_miliseconds r)) = (wait_count r <? 1000).
Proof.
  unfold wait_miliseconds. rewrite wait_count_js.
  destruct (Z.ltb_spec (wait_count r) 1000) as [H|H].
  - apply negb_true_iff, not_true_iff_false. rewrite Qle_bool_iff.
    unfold Qle, Qdiv, Qmult, Qinv, inject_Z. cbn. lia.
  - apply negb_false_iff. rewrite Qle_bool_iff.
    unfold Qle, Qdiv, Qmult, Qinv, inject_Z. cbn. lia.
Qed.




(** The delay the handler passes for CX=0, DX=1000 is 2 ms, twice the
    1000 microseconds CX:DX spell. *)
Example int15_wait_counts_dx_twice :
  (wait_miliseconds (regs_of 0x8600 0 0 1000) == 2)%Q.
Proof. reflexivity. Qed.

(** ** INT 10h *)

Example int10_set_mode_3 :
  BIOS.mode (screen (int10_set_mode sample_video
                       (text_machine (regs_of 0x0003 0 0 0) 0 0 0)))
  = Some mode_3.
Proof. vm_compute. reflexivity. Qed.

Example int10_set_mode_12h :
  BIOS.mode (screen (int10_set_mode sample_video
                       (text_machine (regs_of 0x0012 0 0 0) 0 0 0)))
  = Some (VideoMode.Make 0x12 640 480 (VGA_GRAPHICS_MODES_PRESET "640x480x16") 0x1).
Proof. vm_compute. reflexivity. Qed.

(** No entry of the mode table is the 80x50 text mode. *)
Lemma BIOS_VideoMode_has_no_80x50 key mode :
  BIOS_VideoMode !! key = Some mode -> mode <> mode_80x50.
Proof.
  intros H. apply elem_of_list_to_map_2 in H.
  repeat (apply elem_of_cons in H as [H|H]; [injection H as -> ->; discriminate|]).
  now apply elem_of_nil in H.
Qed.

(** [setVideoMode] called with a [VideoMode] object never installs it,
    whatever string the object converts to: [Number.isNaN] is false of an
    object, so the object is looked up in the mode table as a key. *)
Lemma setVideoMode_object_not_installed V m :
  BIOS.mode (screen (setVideoMode V (ModeObject mode_80x50) m)) = Some mode_80x50 ->
  BIOS.mode (screen m) = Some mode_80x50.
Proof.
  unfold setVideoMode. cbn [Number_isNaN].
  destruct (BIOS_VideoMode !! property_key V (ModeObject mode_80x50))
    as [mode|] eqn:E.
  - cbn. intros [= ->]. now apply BIOS_VideoMode_has_no_80x50 in E.
  - cbn. auto.
Qed.

(** C5. INT 10h with AH=11h and AL=12h is written to switch the screen to
    the 80x50 text mode and load its preset.  Run from mode 3h, the
    handler hands [setVideoMode] the 80x50 mode as an object; the call logs
    the unknown-screen-code warning and changes nothing else: the active
    mode is still 80x25 and the VGA keeps the 80x25 preset. *)
Theorem int10_extensions_80x50_rejected :
  let m := text_machine (regs_of 0x1112 0 0 0) 0 0 0 in
  let m' := warn (UnknownScreenCode (ModeObject mode_80x50)) m in
  bios_interrupt sample_tables sample_video 0x10 m = Handled (Returns m')
  /\ BIOS.mode (screen m') = Some mode_3
  /\ VGA.preset (vga m') = Some (VGA_TEXT_MODES_PRESET "80x25").
Proof. vm_compute. repeat split. Qed.

(** C7. INT 10h AH=2 with DL and DH, then INT 10h AH=3 (whatever the
    registers hold by then besides AH=3): DL and DH come back as they
    were set, and AX is 0. *)
Theorem int10_cursor_round_trip (T : KeyTables) (V : VideoImports)
    (m : Machine) (r' : Regs.t) :
  Regs.ah (regs m) = 0x2 ->
  Regs.ah r' = 0x3 ->
  exists m1 m2,
    bios_interrupt T V 0x10 m = Handled (Returns m1)
    /\ bios_interrupt T V 0x10 (set_regs r' m1) = Handled (Returns m2)
    /\ Regs.dl (regs m2) = Regs.dl (regs m)
    /\ Regs.dh (regs m2) = Regs.dh (regs m)
    /\ Regs.ax (regs m2) = 0.
Proof.
  intros Hset Hget.
  exists (int10_set_cursor m), (int10_get_cursor (set_regs r' (int10_set_cursor m))).
  split; [now apply dispatch_int10_set_cursor|].
  split; [now apply dispatch_int10_get_cursor|].
  unfold int10_get_cursor, int10_set_cursor.
  cbn [regs vga set_vga set_regs set_cpu cpu CPU.regs getTextCursorLocation
         setCursorLocation VGA.cursor Vec2D.x Vec2D.y].
  split; [|split].
  - change (Regs.dl (Regs.set_ax 0 ?r)) with (Regs.dl r).
    rewrite RegsFacts.dl_set_dh, RegsFacts.dl_set_dl.
    apply RegsFacts.lo8_idem.
  - change (Regs.dh (Regs.set_ax 0 ?r)) with (Regs.dh r).
    rewrite RegsFacts.dh_set_dh. apply RegsFacts.lo8_hi8.
  - now rewrite RegsFacts.ax_set_ax.
Qed.

Lemma int10_cursor_round_trip_witness :
  let m := text_machine (regs_of 0x0200 0 0 0x0c28) 0 0 0 in
  let r' := regs_of 0x0300 0 0 0xffff in
  exists m1 m2,
    bios_interrupt sample_tables sample_video 0x10 m = Handled (Returns m1)
    /\ bios_interrupt sample_tables sample_video 0x10 (set_regs r' m1)
       = Handled (Returns m2)
    /\ Regs.dl (regs m2) = Regs.dl (regs m)
    /\ Regs.dh (regs m2) = Regs.dh (regs m)
    /\ Regs.ax (regs m2) = 0.
Proof.
  apply (int10_cursor_round_trip sample_tables sample_video
           (text_machine (regs_of 0x0200 0 0 0x0c28) 0 0 0)
           (regs_of 0x0300 0 0 0xffff)); reflexivity.
Defined.

(** C6, as the handler has it.  In 80x25 text mode, INT 10h with AH=0Eh
    and AL='X' stores 'X' with attribute 7, the default, in the cell at the
    cursor on the active text page, leaves every other cell alone, and
    moves the cursor one column on, or to column 0 of the next row when
    that column would be the 80th. *)
Theorem int10_teletype_X (T : KeyTables) (V : VideoImports) (m : Machine) :
  Regs.ah (regs m) = 0xe ->
  Regs.al (regs m) = 0x58 ->
  in_80x25_text_mode m ->
  let x := Vec2D.x (VGA.cursor (vga m)) in
  let y := Vec2D.y (VGA.cursor (vga m)) in
  let page := BIOS.page (screen m) in
  exists m',
    bios_interrupt T V 0x10 m = Handled (Returns m')
    /\ VGA.cells (vga m') !! (page, x, y) = Some (0x58, 7)
    /\ (forall c, c <> (page, x, y) ->
          VGA.cells (vga m') !! c = VGA.cells (vga m) !! c)
    /\ VGA.cursor (vga m')
       = if 80 <=? x + 1 then Vec2D.Make 0 (y + 1) else Vec2D.Make (x + 1) y.
Proof.
  intros Hah Hal (Htext & mode & Hmode & Hw & Hh). cbv zeta.
  rewrite dispatch_int10_teletype by assumption.
  unfold int10_teletype, writeCharacter. rewrite Htext, Hal, Hmode.
  change (0x58 =? 0x8) with false. change (0x58 =? 0xa) with false.
  change (0x58 =? 0xd) with false.
  cbn [orb js_lor js_land truthy mbind mret Outcome_bind Outcome_ret
         getTextCursorLocation Vec2D.x Vec2D.y].
  change (VGA.textMode (vga (set_vga ?v m))) with (VGA.textMode v).
  cbn [VideoMode_write VGA.textMode]. rewrite Htext, Hw.
  destruct (80 <=? Vec2D.x (VGA.cursor (vga m)) + 1);
    cbn [mbind mret Outcome_bind Outcome_ret];
    (eexists; split; [reflexivity|]);
    cbn [vga set_vga VideoMode_write setCursorLocation VGA.cells VGA.cursor];
    (split; [apply lookup_insert_eq|]);
    (split; [|reflexivity]);
    intros c Hc; now apply lookup_insert_ne.
Qed.

Lemma int10_teletype_X_witness :
  let m := text_machine (regs_of 0x0e58 0 0 0) 0 0 0 in
  let x := Vec2D.x (VGA.cursor (vga m)) in
  let y := Vec2D.y (VGA.cursor (vga m)) in
  let page := BIOS.page (screen m) in
  exists m',
    bios_interrupt sample_tables sample_video 0x10 m = Handled (Returns m')
    /\ VGA.cells (vga m') !! (page, x, y) = Some (0x58, 7)
    /\ (forall c, c <> (page, x, y) ->
          VGA.cells (vga m') !! c = VGA.cells (vga m) !! c)
    /\ VGA.cursor (vga m')
       = if 80 <=? x + 1 then Vec2D.Make 0 (y + 1) else Vec2D.Make (x + 1) y.
Proof.
  apply (int10_teletype_X sample_tables sample_video
           (text_machine (regs_of 0x0e58 0 0 0) 0 0 0));
    try reflexivity.
  split; [reflexivity|]. exists mode_3. repeat split.
Defined.

(** C6 as stated fails in the last column and off page 0: with page 1
    active and the cursor at column 79 of row 0, the character lands on
    page 1 and the cursor goes to column 0 of row 1. *)
Lemma int10_teletype_counterexample :
  ~ int10_teletype_as_specified sample_tables sample_video
      (text_machine (regs_of 0x0e58 0 0 0) 1 79 0).
Proof.
  intros H.
  destruct (H eq_refl eq_refl) as (m' & Hrun & Hcell & Hcursor).
  { split; [reflexivity|]. exists mode_3. repeat split. }
  vm_compute in Hrun. injection Hrun as <-.
  vm_compute in Hcursor. discriminate.
Qed.

Example int10_teletype_last_column :
  match int10_teletype sample_video (text_machine (regs_of 0x0e58 0 0 0) 1 79 0) with
  | Returns m' =>
      VGA.cursor (vga m') = Vec2D.Make 0 1
      /\ VGA.cells (vga m') !! (1, 79, 0) = Some (0x58, 7)
      /\ VGA.cells (vga m') !! (0, 79, 0) = None
  | Throws _ => False
  end.
Proof. vm_compute. repeat split. Qed.

(** ** INT 16h *)

Lemma element_scan_code mapping shift :
  to_integer
    (element mapping
       (Z.min (Z.of_nat (length mapping) - 1) (if shift : bool then 1 else 0)))
  = scan_code mapping shift.
Proof.
  destruct mapping as [|c [|c' rest]], shift; try reflexivity.
  all: rewrite Z.min_r by (cbn [length]; lia); reflexivity.
Qed.

Section ReadKeyState.
Variables (T : KeyTables) (keymapTable : option KeymapTable).

Lemma readKeyState_frame code m :
  let m' := snd (readKeyState T keymapTable code m) in
  pause m' = pause m /\ keymap m' = keymap m /\ timers m' = timers m
  /\ mem m' = mem m /\ vga m' = vga m.
Proof.
  unfold readKeyState. destruct code as [c|]; [|now cbn].
  destruct (c =? 0); [now cbn|].
  destruct (read_table T keymapTable !! c); now cbn.
Qed.

Lemma readKeyState_mapped k mapping m :
  read_table T keymapTable !! 0 = None ->
  read_table T keymapTable !! k = Some mapping ->
  fst (readKeyState T keymapTable (Some k) m) = true
  /\ Regs.ax (regs (snd (readKeyState T keymapTable (Some k) m)))
     = Regs.u16 (scan_code mapping (Keymap.shift (keymap m))).
Proof.
  intros H0 Hk. unfold readKeyState.
  destruct (Z.eqb_spec k 0) as [->|]; [congruence|].
  rewrite Hk.
  cbn [fst snd regs keymap set_regs set_cpu cpu bios CPU.regs].
  rewrite element_scan_code. split; [reflexivity|].
  apply RegsFacts.ax_set_ax.
Qed.

Lemma readKeyState_unmapped code m :
  read_table T keymapTable !! 0 = None ->
  (forall k, code = Some k -> read_table T keymapTable !! k = None) ->
  fst (readKeyState T keymapTable code m) = false
  /\ Regs.ax (regs (snd (readKeyState T keymapTable code m))) = 0.
Proof.
  intros H0 Hk. unfold readKeyState.
  destruct code as [c|]; [|now cbn].
  destruct (c =? 0); [now cbn|].
  rewrite (Hk c eq_refl). now cbn.
Qed.

End ReadKeyState.

(** C9. INT 16h with AH=1 returns without pausing and without touching
    the key buffer; a pressed key with an entry in the scan-code table
    gives ZF=0 with its code in AX, anything else gives ZF=1 with AX=0.
    The table has no entry for key code 0, the code of an unidentified
    key, which the handler reads as no key. *)
Theorem int16_status_reports_key (T : KeyTables) (V : VideoImports) (m : Machine) :
  Regs.ah (regs m) = 0x1 ->
  SCAN_CODES_TABLE T !! 0 = None ->
  exists m',
    bios_interrupt T V 0x16 m = Handled (Returns m')
    /\ pause m' = pause m
    /\ keymap m' = keymap m
    /\ (forall k mapping,
          Keymap.key (keymap m) = Some k ->
          SCAN_CODES_TABLE T !! k = Some mapping ->
          Regs.zf (regs m') = 0
          /\ Regs.ax (regs m')
             = Regs.u16 (scan_code mapping (Keymap.shift (keymap m))))
    /\ ((forall k, Keymap.key (keymap m) = Some k ->
           SCAN_CODES_TABLE T !! k = None) ->
        Regs.zf (regs m') = 1 /\ Regs.ax (regs m') = 0).
Proof.
  intros Hah H0. exists (int16_status T m).
  split; [now apply dispatch_int16_status|].
  unfold int16_status.
  destruct (readKeyState T None (Keymap.key (keymap m)) m) as [status m1] eqn:E.
  pose proof (readKeyState_frame T None (Keymap.key (keymap m)) m) as Hframe.
  rewrite E in Hframe. cbn [snd] in Hframe.
  destruct Hframe as (Hpause & Hkeymap & _).
  cbn [regs pause keymap set_regs set_cpu cpu bios CPU.regs CPU.pause].
  split; [exact Hpause|]. split; [exact Hkeymap|].
  change (Regs.ax (Regs.set_zf ?v ?r)) with (Regs.ax r).
  split.
  - intros k mapping Hkey Hk.
    destruct (readKeyState_mapped T None k mapping m H0 Hk) as [Hst Hax].
    rewrite <- Hkey, E in Hst, Hax. cbn [fst snd] in Hst, Hax. subst status.
    split; [apply RegsFacts.flag_set_flag_0 | exact Hax].
  - intros Hnone.
    destruct (readKeyState_unmapped T None (Keymap.key (keymap m)) m H0 Hnone)
      as [Hst Hax].
    rewrite E in Hst, Hax. cbn [fst snd] in Hst, Hax. subst status.
    split; [now apply RegsFacts.flag_set_flag_1 | exact Hax].
Qed.

Lemma int16_status_reports_key_witness :
  let m := set_keymap (Keymap.Make false false false true (Some 65) None)
             (text_machine (regs_of 0x0100 0 0 0) 0 0 0) in
  Regs.ah (regs m) = 0x1
  /\ SCAN_CODES_TABLE sample_tables !! 0 = None
  /\ exists m',
       bios_interrupt sample_tables sample_video 0x16 m = Handled (Returns m')
       /\ pause m' = pause m
       /\ keymap m' = keymap m
       /\ Regs.zf (regs m') = 0
       /\ Regs.ax (regs m') = 0x1e41.
Proof.
  cbv zeta. do 2 (split; [reflexivity|]).
  destruct (int16_status_reports_key sample_tables sample_video
              (set_keymap (Keymap.Make false false false true (Some 65) None)
                 (text_machine (regs_of 0x0100 0 0 0) 0 0 0))
              eq_refl eq_refl) as (m' & Hrun & Hpause & Hkeymap & Hkey & _).
  exists m'. split; [exact Hrun|]. split; [exact Hpause|]. split; [exact Hkeymap|].
  exact (Hkey 65 [0x1e61; 0x1e41] eq_refl eq_refl).
Defined.

Example int16_status_shifted_A :
  let m := set_keymap (Keymap.Make false false false true (Some 65) None)
             (text_machine (regs_of 0x0100 0 0 0) 0 0 0) in
  let m' := int16_status sample_tables m in
  Regs.zf (regs m') = 0 /\ Regs.ax (regs m') = 0x1e41 /\ pause m' = false.
Proof. vm_compute. repeat split. Qed.

Section BlockingRead.
Variables (T : KeyTables) (keymapTable : option KeymapTable).

Lemma keyListener_no_key m :
  Keymap.key (keymap m) = None ->
  waiting_for_key keymapTable (keyListener T keymapTable m)
  /\ regs (keyListener T keymapTable m) = regs m.
Proof. intros H. unfold keyListener. rewrite H. now cbn. Qed.

Lemma keyListener_key_held k mapping m :
  read_table T keymapTable !! 0 = None ->
  Keymap.key (keymap m) = Some k ->
  isCaseModifyKeycode k = true ->
  read_table T keymapTable !! k = Some mapping ->
  pause (keyListener T keymapTable m) = pause m
  /\ Regs.ax (regs (keyListener T keymapTable m))
     = Regs.u16 (scan_code mapping (Keymap.shift (keymap m))).
Proof.
  intros H0 Hkey Hmod Hk. unfold keyListener. rewrite Hkey, Hmod.
  destruct (readKeyState_mapped T keymapTable k mapping m H0 Hk) as [_ Hax].
  destruct (readKeyState_frame T keymapTable (Some k) m) as (Hp & _).
  unfold clearKeyBuffer.
  cbn [regs pause set_keymap set_bios cpu].
  split; [exact Hp | exact Hax].
Qed.

Lemma key_event_keeps_waiting ev m :
  waiting_for_key keymapTable m -> ~ releases ev ->
  waiting_for_key keymapTable (key_event T ev m).
Proof.
  intros [Hp Hcb] Hev. destruct ev as [e|]; cbn [key_event].
  - unfold keydown.
    cbn [keymap set_keymap set_bios bios BIOS.keymap Keymap.callback].
    fold (keymap m). rewrite Hcb.
    unfold run_key_callback.
    cbn [keymap set_keymap set_bios bios BIOS.keymap Keymap.key].
    destruct (bodyIsActive e) eqn:Hb; cbn [negb].
    + destruct (isCaseModifyKeycode (keyCode e)) eqn:Hm.
      * exfalso. apply Hev. now split.
      * now split.
    + now split.
  - unfold keyup, clearKeyBuffer. now split.
Qed.

Lemma key_events_keep_waiting evs : forall m,
  waiting_for_key keymapTable m ->
  Forall (fun ev => ~ releases ev) evs ->
  waiting_for_key keymapTable (key_events T evs m).
Proof.
  induction evs as [|ev evs IH]; intros m Hw Hall; [exact Hw|].
  inversion Hall; subst. cbn [key_events foldl].
  apply IH; [now apply key_event_keeps_waiting | assumption].
Qed.

Lemma keydown_releases e m :
  read_table T keymapTable !! 0 = None ->
  waiting_for_key keymapTable m ->
  releases (KeyDown e) ->
  pause (keydown T e m) = false
  /\ (forall mapping, read_table T keymapTable !! keyCode e = Some mapping ->
        Regs.ax (regs (keydown T e m))
        = Regs.u16 (scan_code mapping (shiftKey e)))
  /\ (read_table T keymapTable !! keyCode e = None -> Regs.ax (regs (keydown T e m)) = 0).
Proof.
  intros H0 [Hp Hcb] [Hb Hm]. unfold keydown.
  cbn [keymap set_keymap set_bios bios BIOS.keymap Keymap.callback].
  fold (keymap m). rewrite Hcb.
  unfold run_key_callback. rewrite Hb.
  cbn [negb keymap set_keymap set_bios bios BIOS.keymap Keymap.key].
  rewrite Hm. unfold clearKeyBuffer.
  cbn [regs pause set_pause set_keymap set_bios set_cpu cpu CPU.pause CPU.regs].
  split; [reflexivity|].
  set (m1 := set_keymap _ m).
  split.
  - intros mapping Hk.
    destruct (readKeyState_mapped T keymapTable (keyCode e) mapping m1 H0 Hk)
      as [_ Hax].
    exact Hax.
  - intros Hk.
    destruct (readKeyState_unmapped T keymapTable (Some (keyCode e)) m1 H0)
      as [_ Hax]; [now intros k [= <-] | exact Hax].
Qed.

End BlockingRead.

(** C8, as the handler has it.  INT 16h with AH=0 or AH=10h and no key
    pressed pauses the CPU; it stays paused through every key event except
    the press of a key other than Shift, Ctrl and Alt made while the
    document body has the focus, and that press clears [pause] and leaves
    in AX the code of the key (0 for a key without a mapping).  With a
    mapped key other than Shift, Ctrl and Alt already pressed, the code is
    in AX when the handler returns and [pause] is untouched.  The table
    read has no entry for key code 0. *)
Theorem int16_wait_key_blocks (T : KeyTables) (V : VideoImports) (m : Machine) :
  Regs.ah (regs m) = 0x0 \/ Regs.ah (regs m) = 0x10 ->
  wait_table T (Regs.ah (regs m)) !! 0 = None ->
  exists m',
    bios_interrupt T V 0x16 m = Handled (Returns m')
    /\ (Keymap.key (keymap m) = None ->
        pause m' = true
        /\ (forall evs,
              Forall (fun ev => ~ releases ev) evs ->
              pause (key_events T evs m') = true)
        /\ (forall evs e,
              Forall (fun ev => ~ releases ev) evs ->
              releases (KeyDown e) ->
              pause (keydown T e (key_events T evs m')) = false
              /\ (forall mapping,
                    wait_table T (Regs.ah (regs m)) !! keyCode e = Some mapping ->
                    Regs.ax (regs (keydown T e (key_events T evs m')))
                    = Regs.u16 (scan_code mapping (shiftKey e)))
              /\ (wait_table T (Regs.ah (regs m)) !! keyCode e = None ->
                  Regs.ax (regs (keydown T e (key_events T evs m'))) = 0)))
    /\ (forall k mapping,
          Keymap.key (keymap m) = Some k ->
          isCaseModifyKeycode k = true ->
          wait_table T (Regs.ah (regs m)) !! k = Some mapping ->
          pause m' = pause m
          /\ Regs.ax (regs m')
             = Regs.u16 (scan_code mapping (Keymap.shift (keymap m)))).
Proof.
  intros Hah H0.
  assert (exists kt,
            bios_interrupt T V 0x16 m = Handled (Returns (keyListener T kt m))
            /\ wait_table T (Regs.ah (regs m)) = read_table T kt)
    as (kt & Hrun & Htable).
  { destruct Hah as [Hah|Hah].
    - exists None. rewrite Hah. split; [now apply dispatch_int16_wait_key | reflexivity].
    - exists (Some (AT2_SCAN_CODES_QWERTY_PRESSED T)). rewrite Hah.
      split; [now apply dispatch_int16_wait_key_at | reflexivity]. }
  rewrite Htable in *.
  exists (keyListener T kt m). split; [exact Hrun|]. split.
  - intros Hkey.
    destruct (keyListener_no_key T kt m Hkey) as [Hw _].
    split; [apply Hw|]. split.
    + intros evs Hevs. now apply (key_events_keep_waiting T kt evs).
    + intros evs e Hevs He.
      apply (keydown_releases T kt e); try assumption.
      now apply key_events_keep_waiting.
  - intros k mapping Hkey Hmod Hk.
    now apply (keyListener_key_held T kt k mapping m).
Qed.

Lemma int16_wait_key_blocks_witness :
  let T := sample_tables in
  let m := text_machine (regs_of 0x0000 0 0 0) 0 0 0 in
  let shift_down := MkKeyboardEvent false false false true 16 true in
  let a_down := MkKeyboardEvent false false false true 65 true in
  (Regs.ah (regs m) = 0x0 \/ Regs.ah (regs m) = 0x10)
  /\ wait_table T (Regs.ah (regs m)) !! 0 = None
  /\ exists m',
       bios_interrupt T sample_video 0x16 m = Handled (Returns m')
       /\ pause m' = true
       /\ pause (key_events T [KeyDown shift_down; KeyUp] m') = true
       /\ pause (keydown T a_down (key_events T [KeyDown shift_down; KeyUp] m'))
          = false
       /\ Regs.ax (regs (keydown T a_down
                           (key_events T [KeyDown shift_down; KeyUp] m')))
          = 0x1e41.
Proof.
  cbv zeta. split; [left; reflexivity|]. split; [reflexivity|].
  destruct (int16_wait_key_blocks sample_tables sample_video
              (text_machine (regs_of 0x0000 0 0 0) 0 0 0)
              (or_introl eq_refl) eq_refl) as (m' & Hrun & Hnokey & _).
  destruct (Hnokey eq_refl) as (Hpause & Hstay & Hrelease).
  assert (Hevs : Forall (fun ev => ~ releases ev)
                   [KeyDown (MkKeyboardEvent false false false true 16 true); KeyUp]).
  { repeat constructor.
    - intros [_ H]. discriminate H.
    - intros []. }
  destruct (Hrelease _ (MkKeyboardEvent false false false true 65 true) Hevs)
    as (Hresume & Hmapped & _); [split; reflexivity|].
  exists m'. split; [exact Hrun|]. split; [exact Hpause|].
  split; [exact (Hstay _ Hevs)|]. split; [exact Hresume|].
  exact (Hmapped [0x1e61; 0x1e41] eq_refl).
Defined.

(** C8 as stated fails on the press of a modifier: with a read pending,
    the press of Shift (key code 16) leaves the CPU paused. *)
Lemma int16_wait_shift_counterexample :
  ~ int16_wait_as_specified sample_tables sample_video
      (text_machine (regs_of 0x0000 0 0 0) 0 0 0)
      (MkKeyboardEvent false false false true 16 true).
Proof.
  intros H.
  destruct (H (or_introl eq_refl) eq_refl) as (m' & Hrun & _ & Hresume & _).
  vm_compute in Hrun. injection Hrun as <-.
  vm_compute in Hresume. discriminate.
Qed.

(** A blocking read, then Shift, then the press of A with Shift held. *)
Example int16_wait_then_shift_A :
  let m := int16_wait_key sample_tables (text_machine (regs_of 0x0000 0 0 0) 0 0 0) in
  let m1 := keydown sample_tables (MkKeyboardEvent false false false true 16 true) m in
  let m2 := keydown sample_tables (MkKeyboardEvent false false false true 65 true) m1 in
  pause m = true /\ pause m1 = true /\ Regs.ax (regs m1) = 0
  /\ pause m2 = false /\ Regs.ax (regs m2) = 0x1e41.
Proof. vm_compute. repeat split. Qed.

(** * Further properties of the services *)

(** ** INT 16h: the key buffer *)

Lemma dispatch_int16_flags T V m :
  Regs.ah (regs m) = 0x2 ->
  bios_interrupt T V 0x16 m = Handled (Returns (int16_flags m)).
Proof. intros H. unfold bios_interrupt. now rewrite H. Qed.

Lemma int16_flags_al m :
  Regs.al (regs (int16_flags m))
  = Z.b2z (Keymap.shift (keymap m))
    + 2 * Z.b2z (Keymap.shift (keymap m))
    + 4 * Z.b2z (Keymap.ctrl (keymap m))
    + 8 * Z.b2z (Keymap.alt (keymap m))
    + 64 * Z.b2z (Keymap.caps (keymap m)).
Proof.
  unfold int16_flags. cbn [regs set_regs set_cpu cpu CPU.regs].
  rewrite RegsFacts.al_set_al.
  destruct (Keymap.shift (keymap m)), (Keymap.ctrl (keymap m)),
    (Keymap.alt (keymap m)), (Keymap.caps (keymap m)); reflexivity.
Qed.

(** INT 16h with AH=2 reports the modifiers of the key buffer in AL: bits
    0 and 1 both carry Shift, bit 2 Ctrl, bit 3 Alt, bit 6 Caps Lock;
    bits 4, 5 and 7 (Scroll Lock, Num Lock, Insert) are never set.  AH,
    the key buffer and [pause] are untouched. *)
Theorem int16_flags_layout (T : KeyTables) (V : VideoImports) (m : Machine) :
  Regs.ah (regs m) = 0x2 ->
  exists m',
    bios_interrupt T V 0x16 m = Handled (Returns m')
    /\ Z.testbit (Regs.al (regs m')) 0 = Keymap.shift (keymap m)
    /\ Z.testbit (Regs.al (regs m')) 1 = Keymap.shift (keymap m)
    /\ Z.testbit (Regs.al (regs m')) 2 = Keymap.ctrl (keymap m)
    /\ Z.testbit (Regs.al (regs m')) 3 = Keymap.alt (keymap m)
    /\ Z.testbit (Regs.al (regs m')) 6 = Keymap.caps (keymap m)
    /\ Z.testbit (Regs.al (regs m')) 4 = false
    /\ Z.testbit (Regs.al (regs m')) 5 = false
    /\ Z.testbit (Regs.al (regs m')) 7 = false
    /\ Regs.ah (regs m') = 0x2
    /\ keymap m' = keymap m
    /\ pause m' = pause m.
Proof.
  intros Hah. exists (int16_flags m).
  split; [now apply dispatch_int16_flags|].
  rewrite int16_flags_al.
  assert (Hah' : Regs.ah (regs (int16_flags m)) = 0x2).
  { unfold int16_flags. cbn [regs set_regs set_cpu cpu CPU.regs].
    now rewrite RegsFacts.ah_set_al. }
  destruct (Keymap.shift (keymap m)), (Keymap.ctrl (keymap m)),
    (Keymap.alt (keymap m)), (Keymap.caps (keymap m));
    repeat split; assumption.
Qed.

Lemma int16_flags_layout_witness :
  let m := set_keymap (Keymap.Make true true false true (Some 65) None)
             (text_machine (regs_of 0x02ff 0 0 0) 0 0 0) in
  exists m',
    bios_interrupt sample_tables sample_video 0x16 m = Handled (Returns m')
    /\ Regs.al (regs m') = 0x47
    /\ Regs.ah (regs m') = 0x2.
Proof.
  cbv zeta.
  destruct (int16_flags_layout sample_tables sample_video
              (set_keymap (Keymap.Make true true false true (Some 65) None)
                 (text_machine (regs_of 0x02ff 0 0 0) 0 0 0)) eq_refl)
    as (m' & Hrun & _ & _ & _ & _ & _ & _ & _ & _ & Hah & _).
  exists m'. split; [exact Hrun|]. split; [|exact Hah].
  vm_compute in Hrun. injection Hrun as <-. reflexivity.
Defined.

(** The modifiers INT 16h AH=2 reports are those of the last key event:
    after a key press with no blocking read pending, AL carries the
    Shift, Ctrl, Alt and Caps Lock state of that event; after a key
    release AL is 0. *)
Theorem int16_flags_follow_events (T : KeyTables) (e : KeyboardEvent) (m : Machine) :
  (Keymap.callback (keymap m) = None ->
   Regs.al (regs (int16_flags (keydown T e m)))
   = Z.b2z (shiftKey e) + 2 * Z.b2z (shiftKey e) + 4 * Z.b2z (ctrlKey e)
     + 8 * Z.b2z (altKey e) + 64 * Z.b2z (capsLock e))
  /\ Regs.al (regs (int16_flags (keyup m))) = 0.
Proof.
  split.
  - intros Hcb. rewrite int16_flags_al. unfold keydown.
    cbn [keymap set_keymap set_bios bios BIOS.keymap Keymap.callback].
    fold (keymap m). rewrite Hcb. reflexivity.
  - rewrite int16_flags_al. reflexivity.
Qed.

(** A blocking read (AH=0 or AH=10h) entered while Shift, Ctrl or Alt is
    the key held (key codes 16 to 18) does nothing at all: it neither
    pauses, nor installs a callback, nor writes AX. *)
Theorem int16_wait_modifier_held (T : KeyTables) (V : VideoImports)
    (m : Machine) (k : Z) :
  Regs.ah (regs m) = 0x0 \/ Regs.ah (regs m) = 0x10 ->
  Keymap.key (keymap m) = Some k ->
  16 <= k <= 18 ->
  bios_interrupt T V 0x16 m = Handled (Returns m).
Proof.
  intros Hah Hkey Hk.
  assert (Hmod : isCaseModifyKeycode k = false).
  { unfold isCaseModifyKeycode.
    destruct (Z.ltb_spec 18 k), (Z.ltb_spec k 16); try lia; reflexivity. }
  destruct Hah as [Hah|Hah].
  - rewrite dispatch_int16_wait_key by assumption.
    unfold int16_wait_key, keyListener. now rewrite Hkey, Hmod.
  - rewrite dispatch_int16_wait_key_at by assumption.
    unfold int16_wait_key_at, keyListener. now rewrite Hkey, Hmod.
Qed.

Lemma int16_wait_modifier_held_witness :
  let m := set_keymap (Keymap.Make false false false true (Some 16) None)
             (text_machine (regs_of 0x0000 0 0 0) 0 0 0) in
  bios_interrupt sample_tables sample_video 0x16 m = Handled (Returns m).
Proof.
  apply (int16_wait_modifier_held sample_tables sample_video
           (set_keymap (Keymap.Make false false false true (Some 16) None)
              (text_machine (regs_of 0x0000 0 0 0) 0 0 0)) 16).
  - left. reflexivity.
  - reflexivity.
  - lia.
Defined.

(** What [readKeyState] returns and leaves in AX is decided by its
    arguments and the Shift state of the key buffer alone. *)
Lemma readKeyState_depends_on_shift T keymapTable code m1 m2 :
  Keymap.shift (keymap m1) = Keymap.shift (keymap m2) ->
  fst (readKeyState T keymapTable code m1) = fst (readKeyState T keymapTable code m2)
  /\ Regs.ax (regs (snd (readKeyState T keymapTable code m1)))
     = Regs.ax (regs (snd (readKeyState T keymapTable code m2))).
Proof.
  intros Hs. unfold readKeyState. destruct code as [c|]; [|now cbn].
  destruct (c =? 0); [now cbn|].
  destruct (read_table T keymapTable !! c); [|now cbn].
  change (keymap (set_regs ?r ?x)) with (keymap x). rewrite Hs.
  cbn [fst snd regs set_regs set_cpu cpu CPU.regs].
  rewrite !RegsFacts.ax_set_ax. now split.
Qed.

(** INT 16h with AH=1 does not take the key out of the buffer: asked
    again, whatever the registers hold by then besides AH=1, it answers
    with the same ZF and the same AX. *)
Theorem int16_status_repeats (T : KeyTables) (V : VideoImports)
    (m : Machine) (r' : Regs.t) :
  Regs.ah (regs m) = 0x1 ->
  Regs.ah r' = 0x1 ->
  exists m1 m2,
    bios_interrupt T V 0x16 m = Handled (Returns m1)
    /\ bios_interrupt T V 0x16 (set_regs r' m1) = Handled (Returns m2)
    /\ Regs.zf (regs m2) = Regs.zf (regs m1)
    /\ Regs.ax (regs m2) = Regs.ax (regs m1)
    /\ keymap m2 = keymap m.
Proof.
  intros Hah Hah'.
  exists (int16_status T m), (int16_status T (set_regs r' (int16_status T m))).
  split; [now apply dispatch_int16_status|].
  split; [now apply dispatch_int16_status|].
  assert (Hk1 : keymap (int16_status T m) = keymap m).
  { unfold int16_status.
    pose proof (readKeyState_frame T None (Keymap.key (keymap m)) m) as Hf.
    destruct (readKeyState T None (Keymap.key (keymap m)) m) as [s m1].
    cbn [snd] in Hf. now destruct Hf as (_ & Hf & _). }
  set (m1 := int16_status T m) in *.
  assert (Hk2 : keymap (set_regs r' m1) = keymap m) by exact Hk1.
  unfold int16_status at 1 2 3. rewrite Hk2.
  destruct (readKeyState_depends_on_shift T None (Keymap.key (keymap m))
              (set_regs r' m1) m) as [Hfst Hax].
  { now rewrite Hk2. }
  pose proof (readKeyState_frame T None (Keymap.key (keymap m)) (set_regs r' m1))
    as Hf2.
  destruct (readKeyState T None (Keymap.key (keymap m)) (set_regs r' m1))
    as [s2 n2].
  subst m1. unfold int16_status.
  destruct (readKeyState T None (Keymap.key (keymap m)) m) as [s1 n1].
  cbn [fst snd] in *. subst s2.
  cbn [regs keymap set_regs set_cpu cpu bios CPU.regs].
  change (Regs.ax (Regs.set_zf ?v ?r)) with (Regs.ax r).
  split; [|split; [exact Hax|]].
  - unfold Regs.zf, Regs.set_zf. destruct s1.
    + change (js_xor (Z.b2z true) 1) with 0.
      now rewrite !RegsFacts.flag_set_flag_0.
    + change (js_xor (Z.b2z false) 1) with 1.
      now rewrite !RegsFacts.flag_set_flag_1.
  - destruct Hf2 as (_ & Hf2 & _).
    change (keymap n2 = keymap m). now rewrite Hf2.
Qed.

Lemma int16_status_repeats_witness :
  let m := set_keymap (Keymap.Make false false false false (Some 65) None)
             (text_machine (regs_of 0x0100 0 0 0) 0 0 0) in
  let r' := regs_of 0x0100 0x1234 0 0 in
  exists m1 m2,
    bios_interrupt sample_tables sample_video 0x16 m = Handled (Returns m1)
    /\ bios_interrupt sample_tables sample_video 0x16 (set_regs r' m1)
       = Handled (Returns m2)
    /\ Regs.zf (regs m2) = Regs.zf (regs m1)
    /\ Regs.ax (regs m2) = Regs.ax (regs m1)
    /\ keymap m2 = keymap m.
Proof.
  apply (int16_status_repeats sample_tables sample_video
           (set_keymap (Keymap.Make false false false false (Some 65) None)
              (text_machine (regs_of 0x0100 0 0 0) 0 0 0))
           (regs_of 0x0100 0x1234 0 0)); reflexivity.
Defined.

(** A blocking read (AH=0 or AH=10h) entered while a key other than
    Shift, Ctrl and Alt is held takes the key out of the buffer, mapped or
    not, without pausing: the buffer is empty afterwards and INT 16h AH=1
    then answers ZF=1, AX=0. *)
Theorem int16_wait_takes_key (T : KeyTables) (V : VideoImports)
    (m : Machine) (k : Z) (r' : Regs.t) :
  Regs.ah (regs m) = 0x0 \/ Regs.ah (regs m) = 0x10 ->
  Keymap.key (keymap m) = Some k ->
  k < 16 \/ 18 < k ->
  Regs.ah r' = 0x1 ->
  exists m1 m2,
    bios_interrupt T V 0x16 m = Handled (Returns m1)
    /\ keymap m1 = Keymap.Make false false false false None None
    /\ pause m1 = pause m
    /\ bios_interrupt T V 0x16 (set_regs r' m1) = Handled (Returns m2)
    /\ Regs.zf (regs m2) = 1
    /\ Regs.ax (regs m2) = 0.
Proof.
  intros Hah Hkey Hk Hah'.
  assert (Hmod : isCaseModifyKeycode k = true).
  { unfold isCaseModifyKeycode.
    destruct (Z.ltb_spec 18 k), (Z.ltb_spec k 16); try lia; reflexivity. }
  assert (exists kt,
            bios_interrupt T V 0x16 m = Handled (Returns (keyListener T kt m)))
    as (kt & Hrun).
  { destruct Hah as [Hah|Hah].
    - exists None. now apply dispatch_int16_wait_key.
    - exists (Some (AT2_SCAN_CODES_QWERTY_PRESSED T)).
      now apply dispatch_int16_wait_key_at. }
  set (m1 := keyListener T kt m).
  assert (Hk1 : keymap m1 = Keymap.Make false false false false None None).
  { unfold m1, keyListener. now rewrite Hkey, Hmod. }
  assert (Hp1 : pause m1 = pause m).
  { unfold m1, keyListener. rewrite Hkey, Hmod.
    destruct (readKeyState_frame T kt (Some k) m) as (Hp & _). exact Hp. }
  exists m1, (int16_status T (set_regs r' m1)).
  split; [exact Hrun|]. split; [exact Hk1|]. split; [exact Hp1|].
  split; [now apply dispatch_int16_status|].
  unfold int16_status.
  change (keymap (set_regs r' m1)) with (keymap m1). rewrite Hk1.
  cbn [Keymap.key readKeyState regs set_regs set_cpu cpu CPU.regs].
  change (js_xor (Z.b2z false) 1) with 1.
  split; [now apply RegsFacts.flag_set_flag_1 | reflexivity].
Qed.

Lemma int16_wait_takes_key_witness :
  let m := set_keymap (Keymap.Make false false false true (Some 65) None)
             (text_machine (regs_of 0x0000 0 0 0) 0 0 0) in
  let r' := regs_of 0x0100 0 0 0 in
  exists m1 m2,
    bios_interrupt sample_tables sample_video 0x16 m = Handled (Returns m1)
    /\ keymap m1 = Keymap.Make false false false false None None
    /\ pause m1 = pause m
    /\ bios_interrupt sample_tables sample_video 0x16 (set_regs r' m1)
       = Handled (Returns m2)
    /\ Regs.zf (regs m2) = 1
    /\ Regs.ax (regs m2) = 0.
Proof.
  apply (int16_wait_takes_key sample_tables sample_video
           (set_keymap (Keymap.Make false false false true (Some 65) None)
              (text_machine (regs_of 0x0000 0 0 0) 0 0 0))
           65 (regs_of 0x0100 0 0 0)).
  - left. reflexivity.
  - reflexivity.
  - right. lia.
  - reflexivity.
Defined.

(** ** INT 10h: modes *)

Lemma dispatch_int10_set_mode T V m :
  Regs.ah (regs m) = 0x0 ->
  bios_interrupt T V 0x10 m = Handled (Returns (int10_set_mode V m)).
Proof. intros H. unfold bios_interrupt. now rewrite H. Qed.

Lemma dispatch_int10_get_mode T V m :
  Regs.ah (regs m) = 0xf ->
  bios_interrupt T V 0x10 m = Handled (int10_get_mode m).
Proof. intros H. unfold bios_interrupt. now rewrite H. Qed.


Lemma setVideoMode_unknown V n m :
  BIOS_VideoMode !! pretty n = None ->
  setVideoMode V (ModeCode (Num n)) m = warn (UnknownScreenCode (ModeCode (Num n))) m.
Proof. intros H. unfold setVideoMode. cbn [Number_isNaN property_key]. now rewrite H. Qed.




(** The other 248 values of a byte are no key of the mode table. *)
Lemma BIOS_VideoMode_other_codes n :
  0 <= n < 256 ->
  ~ In n [0x0; 0x1; 0x2; 0x3; 0x4; 0x11; 0x12; 0x13] ->
  BIOS_VideoMode !! pretty n = None.
Proof.
  intros Hn Hout.
  assert (Hall : forallb
                   (fun n => existsb (Z.eqb n) [0x0; 0x1; 0x2; 0x3; 0x4; 0x11; 0x12; 0x13]
                             || match BIOS_VideoMode !! pretty n with
                                | None => true
                                | Some _ => false
                                end)
                   (seqZ 0 256) = true) by (vm_compute; reflexivity).
  rewrite forallb_forall in Hall.
  specialize (Hall n). cbv beta in Hall.
  assert (Hin : In n (seqZ 0 256)).
  { apply list_elem_of_In, elem_of_seqZ. lia. }
  specialize (Hall Hin). apply orb_true_iff in Hall as [Hall|Hall].
  - exfalso. apply Hout. apply existsb_exists in Hall as (x & Hx & Heq).
    apply Z.eqb_eq in Heq. now subst.
  - now destruct (BIOS_VideoMode !! pretty n).
Qed.

(** INT 10h AH=0 with any other value in AL changes neither the active
    mode nor the VGA nor any register: all it does is log the warning of
    an unknown screen code. *)
Theorem int10_set_mode_unknown (T : KeyTables) (V : VideoImports) (m : Machine) :
  Regs.ah (regs m) = 0x0 ->
  ~ In (Regs.al (regs m)) [0x0; 0x1; 0x2; 0x3; 0x4; 0x11; 0x12; 0x13] ->
  bios_interrupt T V 0x10 m
  = Handled (Returns (warn (UnknownScreenCode (ModeCode (Num (Regs.al (regs m))))) m)).
Proof.
  intros Hah Hal. rewrite dispatch_int10_set_mode by assumption.
  unfold int10_set_mode. rewrite setVideoMode_unknown; [reflexivity|].
  apply BIOS_VideoMode_other_codes; [apply RegsFacts.lo8_range | exact Hal].
Qed.

Lemma int10_set_mode_unknown_witness :
  let m := text_machine (regs_of 0x0005 0 0 0) 0 0 0 in
  bios_interrupt sample_tables sample_video 0x10 m
  = Handled (Returns (warn (UnknownScreenCode (ModeCode (Num 5))) m)).
Proof.
  apply (int10_set_mode_unknown sample_tables sample_video
           (text_machine (regs_of 0x0005 0 0 0) 0 0 0)).
  - reflexivity.
  - cbn. intros H. repeat (destruct H as [H|H]; [discriminate H|]). exact H.
Defined.

(** ** INT 10h: characters *)



Lemma printable_tests c :
  printable c ->
  (c =? 0x8) = false /\ (c =? 0xa) = false /\ (c =? 0xd) = false.
Proof. intros (H8 & Ha & Hd). now rewrite <- !Z.eqb_neq in *. Qed.

(** A normal character in text mode: one cell stored, the cursor vector
    moved on, and the VGA told of it only when [moveCursor] is set. *)
Lemma writeCharacter_printable V c attribute color moveCursor cursor m md :
  printable c ->
  VGA.textMode (vga m) = true ->
  BIOS.mode (screen m) = Some md ->
  writeCharacter V c attribute color moveCursor cursor m
  = let m1 :=
      set_vga
        (VideoMode_write c
           (js_lor
              (js_land color
                 (match attribute with
                  | JUndefined => JNum (Regs.bl (regs m))
                  | _ => attribute
                  end))
              (JNum 7))
           (Vec2D.x cursor) (Vec2D.y cursor) (BIOS.page (screen m)) (vga m)) m in
    let cursor' :=
      if VideoMode.w md <=? Vec2D.x cursor + 1
      then Vec2D.Make 0 (Vec2D.y cursor + 1)
      else Vec2D.Make (Vec2D.x cursor + 1) (Vec2D.y cursor) in
    Returns (cursor',
             if moveCursor
             then set_vga (setCursorLocation cursor' (vga m1)) m1
             else m1).
Proof.
  intros Hc Htext Hmode.
  destruct (printable_tests c Hc) as (H8 & Ha & Hd).
  unfold writeCharacter. rewrite H8, Ha, Hd, Htext, Hmode.
  cbn [orb mbind mret Outcome_bind Outcome_ret Vec2D.x Vec2D.y].
  change (VGA.textMode (vga (set_vga ?v m))) with (VGA.textMode v).
  cbn [VideoMode_write VGA.textMode]. rewrite Htext.
  cbv zeta. now destruct (VideoMode.w md <=? Vec2D.x cursor + 1).
Qed.

(** The control characters through the teletype service.  In text mode
    with a mode set, INT 10h AH=0Eh stores no cell for backspace, line
    feed or carriage return.  Backspace moves the cursor one column
    left, with no stop at column 0; carriage return puts it in column 0
    and line feed one row down; and when the row reached is not on the
    screen, the text is scrolled up and the cursor put on the last row. *)
Theorem int10_teletype_control (T : KeyTables) (V : VideoImports)
    (m : Machine) (md : VideoMode.t) :
  Regs.ah (regs m) = 0xe ->
  VGA.textMode (vga m) = true ->
  BIOS.mode (screen m) = Some md ->
  let x := Vec2D.x (VGA.cursor (vga m)) in
  let y := Vec2D.y (VGA.cursor (vga m)) in
  (Regs.al (regs m) = 0x8 ->
   bios_interrupt T V 0x10 m
   = Handled (Returns (set_vga (setCursorLocation (Vec2D.Make (x - 1) y) (vga m)) m)))
  /\ (Regs.al (regs m) = 0xd ->
      bios_interrupt T V 0x10 m
      = Handled (Returns
          (if VideoMode.h md <=? y
           then set_vga (setCursorLocation (Vec2D.Make 0 (VideoMode.h md - 1))
                           (scrollTextUp V (vga m))) m
           else set_vga (setCursorLocation (Vec2D.Make 0 y) (vga m)) m)))
  /\ (Regs.al (regs m) = 0xa ->
      bios_interrupt T V 0x10 m
      = Handled (Returns
          (if VideoMode.h md <=? y + 1
           then set_vga (setCursorLocation (Vec2D.Make x (VideoMode.h md - 1))
                           (scrollTextUp V (vga m))) m
           else set_vga (setCursorLocation (Vec2D.Make x (y + 1)) (vga m)) m))).
Proof.
  intros Hah Htext Hmode. cbv zeta.
  rewrite dispatch_int10_teletype by assumption.
  unfold int10_teletype, writeCharacter. rewrite Htext, Hmode.
  repeat split; intros Hal; rewrite Hal.
  - reflexivity.
  - change (0xd =? 0x8) with false. change (0xd =? 0xa) with false.
    change (0xd =? 0xd) with true.
    cbn [orb mbind mret Outcome_bind Outcome_ret getTextCursorLocation
           Vec2D.x Vec2D.y].
    now destruct (VideoMode.h md <=? Vec2D.y (VGA.cursor (vga m))).
  - change (0xa =? 0x8) with false. change (0xa =? 0xa) with true.
    cbn [orb mbind mret Outcome_bind Outcome_ret getTextCursorLocation
           Vec2D.x Vec2D.y].
    now destruct (VideoMode.h md <=? Vec2D.y (VGA.cursor (vga m)) + 1).
Qed.

Lemma int10_teletype_control_witness :
  let m := text_machine (regs_of 0x0e08 0 0 0) 0 0 24 in
  bios_interrupt sample_tables sample_video 0x10 m
  = Handled (Returns (set_vga (setCursorLocation (Vec2D.Make (-1) 24) (vga m)) m)).
Proof.
  destruct (int10_teletype_control sample_tables sample_video
              (text_machine (regs_of 0x0e08 0 0 0) 0 0 24) mode_3
              eq_refl eq_refl eq_refl) as (Hbs & _).
  exact (Hbs eq_refl).
Defined.

Example int10_teletype_line_feed_on_last_row :
  int10_teletype sample_video (text_machine (regs_of 0x0e0a 0 0 0) 0 5 24)
  = Returns (text_machine (regs_of 0x0e0a 0 0 0) 0 5 24).
Proof. vm_compute. reflexivity. Qed.

(** Before a video mode is set, [screen.mode] is [null]: INT 10h AH=0Fh
    and the output of a normal character through AH=0Eh raise
    [TypeError], in text mode and in graphics mode alike. *)
Theorem int10_needs_a_mode (T : KeyTables) (V : VideoImports) (m : Machine) :
  BIOS.mode (screen m) = None ->
  (Regs.ah (regs m) = 0xf ->
   bios_interrupt T V 0x10 m = Handled (Throws TypeError))
  /\ (Regs.ah (regs m) = 0xe -> printable (Regs.al (regs m)) ->
      bios_interrupt T V 0x10 m = Handled (Throws TypeError)).
Proof.
  intros Hmode. split.
  - intros Hah. rewrite dispatch_int10_get_mode by assumption.
    unfold int10_get_mode. now rewrite Hmode.
  - intros Hah Hc. rewrite dispatch_int10_teletype by assumption.
    destruct (printable_tests _ Hc) as (H8 & Ha & Hd).
    unfold int10_teletype, writeCharacter. rewrite Hmode.
    destruct (VGA.textMode (vga m)) eqn:Htext; rewrite H8, Ha, Hd, ?Htext;
      cbn [orb mbind mret Outcome_bind Outcome_ret]; reflexivity.
Qed.

Lemma int10_needs_a_mode_witness :
  let m := set_screen (BIOS.MakeScreen 0 None)
             (text_machine (regs_of 0x0e58 0 0 0) 0 0 0) in
  bios_interrupt sample_tables sample_video 0x10 m = Handled (Throws TypeError).
Proof.
  destruct (int10_needs_a_mode sample_tables sample_video
              (set_screen (BIOS.MakeScreen 0 None)
                 (text_machine (regs_of 0x0e58 0 0 0) 0 0 0)) eq_refl)
    as (_ & Hout).
  apply Hout; [reflexivity|]. repeat split; discriminate.
Defined.

Section WriteCharactersRow.
Variables (V : VideoImports) (c : Z) (attribute color : JSValue)
  (md : VideoMode.t) (page y bl : Z).
Hypothesis c_printable : printable c.


End WriteCharactersRow.





Section WriteString.
Variables (V : VideoImports) (read8 : list Z -> Z -> Z) (md : VideoMode.t).



End WriteString.




(** ** INT 13h: what a read leaves alone, and what it raises *)

(** The loop's call, once the destination fits, writes inside the sector
    it was given and nowhere else. *)
Lemma Buffer_copy_clamped_frame (this target : list Z) ts s size :
  0 <= ts -> 0 <= s -> 0 < size -> ts + size <= byteLength target ->
  exists target',
    Buffer_copy this target ts s (Z.min (s + size) (byteLength this))
      = Returns target'
    /\ length target' = length target
    /\ forall k, k < ts \/ ts + size <= k -> byteAt target' k = byteAt target k.
Proof.
  intros Hts Hs Hsize Hfit. unfold Buffer_copy.
  assert (0 <= byteLength this) by (unfold byteLength; lia).
  set (e := Z.min (s + size) (byteLength this)).
  assert (He : e <= byteLength this) by lia.
  assert (He' : e <= s + size) by lia.
  destruct (Z.leb_spec (byteLength target) ts); [lia|].
  destruct (Z.ltb_spec 0 e), (Z.ltb_spec e s); cbn [andb];
    try (rewrite Z.eqb_refl; eauto; fail).
  all: destruct (Z.eqb_spec e s); [eauto|].
  all: destruct (Z.eqb_spec (byteLength target) 0); [lia|].
  all: destruct (Z.eqb_spec (byteLength this) 0); cbn [orb]; [eauto|].
  all: try lia.
  destruct (Z.ltb_spec ts 0); [lia|].
  destruct (Z.ltb_spec s 0); [lia|].
  destruct (Z.leb_spec (byteLength this) s); [lia|]. cbn [orb].
  destruct (Z.ltb_spec e 0); [lia|].
  destruct (Z.ltb_spec (byteLength this) e); [lia|].
  destruct (Z.ltb_spec (byteLength target - ts) (e - s)); [lia|].
  assert (Hchunk : Z.of_nat (length (subarray this s e)) = e - s)
    by (apply length_subarray; lia).
  eexists. split; [reflexivity|]. split.
  - apply length_set_bytes; lia.
  - intros k Hk. rewrite byteAt_set_bytes by lia.
    destruct (Z.leb_spec ts k),
      (Z.ltb_spec k (ts + Z.of_nat (length (subarray this s e))));
      cbn [andb]; try reflexivity; lia.
Qed.

Lemma Buffer_copy_raises (this target : list Z) ts s e err :
  Buffer_copy this target ts s e = Throws err -> err = RangeError.
Proof.
  unfold Buffer_copy.
  repeat match goal with
         | |- context [if ?c then _ else _] => destruct c
         end; congruence.
Qed.

Section CopyFrame.
Variables (buffer : list Z) (src dest sectorSize : Z).

Lemma copy_sectors_raises n : forall i memory err,
  copy_sectors n i buffer src dest sectorSize memory = Throws err ->
  err = RangeError.
Proof.
  induction n as [|n IH]; intros i memory err; cbn [copy_sectors]; [discriminate|].
  destruct (_ <? _); [discriminate|].
  destruct (Buffer_copy _ _ _ _ _) as [memory1|err1] eqn:Hcopy;
    cbn [mbind Outcome_bind].
  - destruct (_ <? _); [discriminate|]. apply IH.
  - intros [= <-]. eapply Buffer_copy_raises, Hcopy.
Qed.

Hypothesis dest_nonneg : 0 <= dest.
Hypothesis sectorSize_pos : 0 < sectorSize.
Hypothesis src_nonneg : 0 <= src.

(** From a source offset that is not negative the loop raises nothing,
    keeps the length of the memory and writes only inside the [n]
    sectors from sector [i] of the destination on. *)
Lemma copy_sectors_frame n : forall i memory,
  0 <= i ->
  exists memory' error,
    copy_sectors n i buffer src dest sectorSize memory = Returns (memory', error)
    /\ length memory' = length memory
    /\ forall k,
         k < dest + i * sectorSize
         \/ dest + (i + Z.of_nat n) * sectorSize <= k ->
         byteAt memory' k = byteAt memory k.
Proof.
  induction n as [|n IH]; intros i memory Hi.
  - exists memory, false. repeat split.
  - cbn [copy_sectors].
    destruct (Z.ltb_spec (byteLength memory) (dest + i * sectorSize + sectorSize)).
    { exists memory, true. repeat split. }
    destruct (Buffer_copy_clamped_frame buffer memory (dest + i * sectorSize)
                (src + i * sectorSize) sectorSize)
      as (memory1 & Hcopy & Hlen1 & Hframe1); try nia.
    rewrite Hcopy. cbn [mbind Outcome_bind].
    destruct (Z.ltb_spec (byteLength buffer) (src + i * sectorSize + sectorSize)).
    { exists memory1, true. repeat split; [assumption|].
      intros k Hk. apply Hframe1. nia. }
    destruct (IH (i + 1) memory1 ltac:(lia))
      as (memory' & error & Hrun & Hlen' & Hframe').
    exists memory', error. split; [exact Hrun|]. split; [congruence|].
    intros k Hk. rewrite Hframe' by nia. apply Hframe1. nia.
Qed.

End CopyFrame.

Lemma al_set_cf v r : Regs.al (Regs.set_cf v r) = Regs.al r.
Proof. reflexivity. Qed.

Lemma read_src_nonneg r drive :
  0 < Drive.sector (Drive.info drive) ->
  0 <= Drive.heads (Drive.info drive) ->
  0 <= Drive.sectors (Drive.info drive) ->
  1 <= chs_sector (Regs.cl r) ->
  0 <= read_src r drive.
Proof.
  intros Hsize Hheads Hsectors Hsector. unfold read_src.
  rewrite read_cylinder_spec, read_sector_spec.
  unfold chs_sector in Hsector.
  pose proof (RegsFacts.hi8_range (Regs.r_cx r)) as Hch.
  pose proof (RegsFacts.lo8_range (Regs.r_cx r)) as Hcl.
  pose proof (RegsFacts.hi8_range (Regs.r_dx r)) as Hdh.
  fold (Regs.ch r) in Hch. fold (Regs.cl r) in Hcl. fold (Regs.dh r) in Hdh.
  assert (0 <= Regs.cl r / 64) by (apply Z.div_pos; lia).
  apply Z.mul_nonneg_nonneg; [|lia].
  assert (0 <= ((Regs.ch r + 256 * (Regs.cl r / 64)) * Drive.heads (Drive.info drive)
                + Regs.dh r) * Drive.sectors (Drive.info drive))
    by (apply Z.mul_nonneg_nonneg; nia).
  lia.
Qed.

(** INT 13h AH=2 on an attached drive with a sector number of 1 or more
    in CL: the service raises nothing and reports through CF and AH only
    (0 and 0, or 1 and 0BBh); AL, BX, CX and DX come back as they went
    in, the memory keeps its length and every byte outside the AL
    sectors from ES:BX on keeps its value, also when the read fails half
    way; and the drive keeps its geometry and holds the medium that was
    read. *)
Theorem int13_read_frame (T : KeyTables) (V : VideoImports) (m : Machine)
    (drive : Drive.t) :
  Regs.ah (regs m) = 0x2 ->
  drives m !! Regs.dl (regs m) = Some drive ->
  0 < Drive.sector (Drive.info drive) ->
  0 <= Drive.heads (Drive.info drive) ->
  0 <= Drive.sectors (Drive.info drive) ->
  1 <= chs_sector (Regs.cl (regs m)) ->
  exists m',
    bios_interrupt T V 0x13 m = Handled (Returns m')
    /\ (Regs.cf (regs m') = 0 /\ Regs.ah (regs m') = 0
        \/ Regs.cf (regs m') = 1 /\ Regs.ah (regs m') = 0xbb)
    /\ Regs.al (regs m') = Regs.al (regs m)
    /\ Regs.bx (regs m') = Regs.bx (regs m)
    /\ Regs.cx (regs m') = Regs.cx (regs m)
    /\ Regs.dx (regs m') = Regs.dx (regs m)
    /\ length (mem m') = length (mem m)
    /\ (forall k,
          k < read_dest (regs m)
          \/ read_dest (regs m)
             + Regs.al (regs m) * Drive.sector (Drive.info drive) <= k ->
          byteAt (mem m') k = byteAt (mem m) k)
    /\ drives m'
       = <[Regs.dl (regs m)
           := Drive.Make (medium m drive) (Drive.track drive) (Drive.info drive)]>
           (drives m).
Proof.
  intros Hah Hdrive Hsize Hheads Hsectors Hsector.
  pose proof (read_dest_range (regs m)) as Hdest.
  pose proof (read_src_nonneg (regs m) drive Hsize Hheads Hsectors Hsector) as Hsrc.
  pose proof (RegsFacts.lo8_range (Regs.r_ax (regs m))) as Hal.
  fold (Regs.al (regs m)) in Hal.
  rewrite dispatch_int13_read by assumption.
  unfold int13_read. rewrite Hdrive. cbv zeta.
  assert (Hassign :
            match Drive.buffer drive with
            | None => Drive.set_buffer (device m) drive
            | Some _ => drive
            end = Drive.Make (medium m drive) (Drive.track drive) (Drive.info drive)).
  { unfold medium, Drive.set_buffer. destruct drive as [[b|] t i]; reflexivity. }
  rewrite Hassign. cbn [Drive.buffer].
  change (mem (set_drives _ m)) with (mem m).
  change (regs (set_drives _ m)) with (regs m).
  destruct (medium m drive) as [buffer|].
  - destruct (copy_sectors_frame buffer (read_src (regs m) drive)
                (read_dest (regs m)) (Drive.sector (Drive.info drive))
                ltac:(lia) Hsize Hsrc (Z.to_nat (Regs.al (regs m))) 0 (mem m)
                ltac:(lia))
      as (memory' & error & Hrun & Hlen & Hframe).
    rewrite Hrun. cbn [mbind mret Outcome_bind Outcome_ret].
    eexists. split; [reflexivity|].
    destruct error;
      cbn [regs mem drives bios set_regs set_mem set_cpu set_drives set_bios cpu
           CPU.regs CPU.mem BIOS.drives];
      rewrite ?cf_set_ah, ?cf_set_cf_1, ?cf_set_cf_0, ?RegsFacts.ah_set_ah.
    all: (split; [first [left; split; reflexivity | right; split; reflexivity]|]).
    all: (split; [repeat (rewrite RegsFacts.al_set_ah || rewrite al_set_cf);
                  reflexivity|]).
    all: do 3 (split; [reflexivity|]).
    all: split; [exact Hlen|].
    all: split; [|reflexivity].
    all: intros k Hk; apply Hframe; rewrite Z2Nat.id by lia; lia.
  - cbn [mbind mret Outcome_bind Outcome_ret].
    eexists. split; [reflexivity|].
    cbn [regs mem drives bios set_regs set_mem set_cpu set_drives set_bios cpu
         CPU.regs CPU.mem BIOS.drives].
    rewrite ?cf_set_ah, ?cf_set_cf_1, ?RegsFacts.ah_set_ah.
    split; [right; split; reflexivity|].
    split; [repeat (rewrite RegsFacts.al_set_ah || rewrite al_set_cf);
            reflexivity|].
    repeat split.
Qed.

Lemma int13_read_frame_witness :
  let m := disk_machine 0x0201 0 0x0002 0 1024 2 in
  exists m',
    bios_interrupt sample_tables sample_video 0x13 m = Handled (Returns m')
    /\ Regs.al (regs m') = 1
    /\ length (mem m') = 1024%nat
    /\ byteAt (mem m') 512 = Some 0
    /\ drives m'
       = {[ 0 := Drive.Make (Some (disk_image 2)) 0 (Drive.MakeInfo 512 18 2) ]}.
Proof.
  cbv zeta.
  destruct (int13_read_frame sample_tables sample_video
              (disk_machine 0x0201 0 0x0002 0 1024 2)
              (Drive.Make None 0 (Drive.MakeInfo 512 18 2))
              eq_refl eq_refl eq_refl)
    as (m' & Hrun & _ & Hal & _ & _ & _ & Hlen & Hframe & Hdrives).
  - discriminate.
  - discriminate.
  - discriminate.
  - exists m'. split; [exact Hrun|]. split; [exact Hal|]. split; [exact Hlen|].
    split.
    + rewrite Hframe; [reflexivity|]. right. vm_compute. discriminate.
    + rewrite Hdrives. vm_compute. reflexivity.
Defined.

(** INT 13h AH=2 on an attached drive that has no buffer while the CPU
    has no boot device either: whatever position is asked for, the
    service fails with CF=1 and AH=0BBh, raises nothing and leaves AL
    and the memory as they were. *)
Theorem int13_read_no_medium (T : KeyTables) (V : VideoImports) (m : Machine)
    (drive : Drive.t) :
  Regs.ah (regs m) = 0x2 ->
  drives m !! Regs.dl (regs m) = Some drive ->
  medium m drive = None ->
  exists m',
    bios_interrupt T V 0x13 m = Handled (Returns m')
    /\ Regs.cf (regs m') = 1
    /\ Regs.ah (regs m') = 0xbb
    /\ Regs.al (regs m') = Regs.al (regs m)
    /\ mem m' = mem m.
Proof.
  intros Hah Hdrive Hmedium.
  rewrite dispatch_int13_read by assumption.
  unfold int13_read. rewrite Hdrive. cbv zeta.
  rewrite medium_after_assign, Hmedium.
  cbn [mbind mret Outcome_bind Outcome_ret].
  eexists. split; [reflexivity|].
  cbn [regs mem set_regs set_cpu cpu CPU.regs CPU.mem].
  rewrite cf_set_ah, cf_set_cf_1, RegsFacts.ah_set_ah, RegsFacts.al_set_ah, al_set_cf.
  repeat split.
Qed.

Lemma int13_read_no_medium_witness :
  let m := booted (regs_of 0x0201 0 0x0000 0) (repeat 0 1024) None in
  exists m',
    bios_interrupt sample_tables sample_video 0x13 m = Handled (Returns m')
    /\ Regs.cf (regs m') = 1
    /\ Regs.ah (regs m') = 0xbb
    /\ mem m' = repeat 0 1024.
Proof.
  cbv zeta.
  destruct (int13_read_no_medium sample_tables sample_video
              (booted (regs_of 0x0201 0 0x0000 0) (repeat 0 1024) None)
              (Drive.Make None 0 (Drive.MakeInfo 512 18 2))
              eq_refl eq_refl eq_refl)
    as (m' & Hrun & Hcf & Hah & _ & Hmem).
  exists m'. repeat split; assumption.
Defined.

(** INT 13h AH=2 raises [TypeError] exactly when DL names no drive of
    the table: with a drive there, whatever the medium, the position and
    the count, no step of the service raises it. *)
Theorem int13_read_type_error (T : KeyTables) (V : VideoImports) (m : Machine) :
  Regs.ah (regs m) = 0x2 ->
  bios_interrupt T V 0x13 m = Handled (Throws TypeError)
  <-> drives m !! Regs.dl (regs m) = None.
Proof.
  intros Hah. rewrite dispatch_int13_read by assumption.
  unfold int13_read.
  destruct (drives m !! Regs.dl (regs m)) as [drive|] eqn:Hdrive; cbv zeta;
    [|now split].
  split; [|discriminate]. intros Hrun. exfalso.
  rewrite medium_after_assign in Hrun.
  destruct (medium m drive) as [buffer|];
    cbn [mbind mret Outcome_bind Outcome_ret] in Hrun; [|discriminate].
  destruct (copy_sectors _ _ _ _ _ _ _) as [[memory' error]|err] eqn:Hcopy;
    cbn [mbind mret Outcome_bind Outcome_ret] in Hrun; [discriminate|].
  apply copy_sectors_raises in Hcopy. congruence.
Qed.

Lemma int13_read_type_error_witness :
  bios_interrupt sample_tables sample_video 0x13
    (disk_machine 0x0201 0 0x0002 0x0001 1024 2)
  = Handled (Throws TypeError).
Proof.
  apply (int13_read_type_error sample_tables sample_video
           (disk_machine 0x0201 0 0x0002 0x0001 1024 2) eq_refl).
  reflexivity.
Defined.

(** ** INT 15h: the count behind the delay *)

(** [(CX << 15) | DX] lets bit 15 of DX fall on bit 0 of CX: the count is
    [CX | (DX >> 15)] times 32768 plus the low 15 bits of DX. *)
Lemma wait_count_split r :
  wait_count r
  = 32768 * Z.lor (Regs.cx r) (Regs.dx r / 32768) + Regs.dx r mod 32768.
Proof.
  unfold wait_count.
  assert (E : Z.lor (Z.shiftl (Regs.cx r) 15) (Regs.dx r)
              = Z.lor (Z.shiftl (Z.lor (Regs.cx r) (Z.shiftr (Regs.dx r) 15)) 15)
                  (Z.land (Regs.dx r) (Z.ones 15))).
  { apply Z.bits_inj'. intros n Hn.
    rewrite !Z.lor_spec, Z.land_spec, !testbit_shiftl, Z.lor_spec,
      testbit_shiftr, Z.testbit_ones by lia.
    destruct (Z.leb_spec 0 (n - 15)), (Z.leb_spec 0 n), (Z.ltb_spec n 15);
      try lia; cbn [andb].
    - replace (n - 15 + 15) with n by lia.
      rewrite andb_false_r, orb_false_r. reflexivity.
    - rewrite !(Z.testbit_neg_r _ (n - 15)) by lia.
      now rewrite andb_true_r. }
  assert (E0 : Z.land (Z.shiftl (Z.lor (Regs.cx r) (Z.shiftr (Regs.dx r) 15)) 15)
                 (Z.land (Regs.dx r) (Z.ones 15)) = 0).
  { apply Z.bits_inj'. intros n Hn.
    rewrite !Z.land_spec, testbit_shiftl, Z.testbit_ones, Z.bits_0 by lia.
    destruct (Z.leb_spec 0 n), (Z.ltb_spec n 15); try lia; cbn [andb].
    rewrite (Z.testbit_neg_r _ (n - 15)) by lia. reflexivity. }
  rewrite E, <- Z.add_nocarry_lor by exact E0.
  rewrite Z.shiftl_mul_pow2, Z.shiftr_div_pow2, Z.land_ones by lia.
  change (2 ^ 15) with 32768. lia.
Qed.

(** INT 15h AH=86h with a delay that passes the guard: the one timer it
    schedules waits, in microseconds and taking the handler's division
    as exact, [65536 * (CX | (DX >> 15)) + 2 * (DX mod 32768)].  The CX
    part is the [CX << 16] of the wait service, with bit 15 of DX or-ed
    into its lowest bit; the low 15 bits of DX count twice, so for DX
    below 8000h the wait is [65536 * CX + 2 * DX] microseconds. *)
Theorem int15_wait_delay (T : KeyTables) (V : VideoImports) (m : Machine) :
  Regs.ah (regs m) = 0x86 ->
  1000 <= wait_count (regs m) ->
  exists m' miliseconds,
    bios_interrupt T V 0x15 m = Handled (Returns m')
    /\ timers m' = timers m ++ [(miliseconds, ClearCarryAndResume)]
    /\ (miliseconds * 1000
        == inject_Z (65536 * Z.lor (Regs.cx (regs m)) (Regs.dx (regs m) / 32768)
                     + 2 * (Regs.dx (regs m) mod 32768)))%Q
    /\ (Regs.dx (regs m) < 0x8000 ->
        (miliseconds * 1000
         == inject_Z (65536 * Regs.cx (regs m) + 2 * Regs.dx (regs m)))%Q).
Proof.
  intros Hah Hcount.
  exists (int15_wait m), (wait_miliseconds (regs m)).
  split; [now apply dispatch_int15_wait|].
  assert (Hms : (wait_miliseconds (regs m) * 1000
                 == inject_Z (2 * wait_count (regs m)))%Q).
  { unfold wait_miliseconds. rewrite wait_count_js.
    unfold Qeq, Qdiv, Qmult, Qinv, inject_Z. cbn. lia. }
  split; [|split].
  - unfold int15_wait. rewrite wait_too_short.
    destruct (Z.ltb_spec (wait_count (regs m)) 1000); [lia|]. reflexivity.
  - rewrite Hms, wait_count_split. apply inject_Z_injective. lia.
  - intros Hdx. rewrite Hms, wait_count_split.
    pose proof (RegsFacts.u16_range (Regs.r_dx (regs m))) as Hrange.
    fold (Regs.dx (regs m)) in Hrange.
    rewrite (Z.div_small (Regs.dx (regs m))), Z.lor_0_r, Z.mod_small by lia.
    apply inject_Z_injective. lia.
Qed.

Lemma int15_wait_delay_witness :
  let m := booted (regs_of 0x8600 0 0x0001 0x8003) [] None in
  exists m' miliseconds,
    bios_interrupt sample_tables sample_video 0x15 m = Handled (Returns m')
    /\ timers m' = [(miliseconds, ClearCarryAndResume)]
    /\ (miliseconds * 1000 == 65542)%Q.
Proof.
  cbv zeta.
  destruct (int15_wait_delay sample_tables sample_video
              (booted (regs_of 0x8600 0 0x0001 0x8003) [] None) eq_refl)
    as (m' & miliseconds & Hrun & Htimers & Hdelay & _).
  - vm_compute. discriminate.
  - exists m', miliseconds. split; [exact Hrun|]. split; [exact Htimers|].
    exact Hdelay.
Defined.

(** ** INT 10h in a graphics mode *)

Section GlyphWrites.




Variables (V : VideoImports) (pos : Vec2D.t) (char : Z) (attr fgColor : JSValue).







End GlyphWrites.







(** ** What the services leave alone *)

Lemma writeCharacter_vga_only V c attribute color moveCursor cursor m cursor' m' :
  writeCharacter V c attribute color moveCursor cursor m = Returns (cursor', m') ->
  exists v, m' = set_vga v m.
Proof.
  unfold writeCharacter.
  generalize (writeGraphicsCharacter V cursor c attribute
                (js_lor
                   (js_land color
                      (match attribute with
                       | JUndefined => JNum (Regs.bl (regs m))
                       | _ => attribute
                       end))
                   (JNum 7))
                (vga m)).
  intros g.
  destruct (BIOS.mode (screen m)) as [md|];
    repeat match goal with
           | |- context [if ?b then _ else _] =>
               destruct b; cbn [mbind mret Outcome_bind Outcome_ret]
           end;
    cbn [mbind mret Outcome_bind Outcome_ret];
    try discriminate; intros [= <- <-];
    first [eexists; reflexivity | exists (vga m); now destruct m].
Qed.



Lemma readKeyState_frame_cpu T table code m :
  let m' := (readKeyState T table code m).2 in
  mem m' = mem m /\ device m' = device m /\ pause m' = pause m
  /\ bios m' = bios m /\ vga m' = vga m /\ timers m' = timers m.
Proof.
  cbv zeta. unfold readKeyState.
  destruct code as [c|]; [|repeat split].
  destruct (c =? 0); [repeat split|].
  destruct (read_table T table !! c); repeat split.
Qed.



Lemma int16_status_frame T m :
  let m' := int16_status T m in
  mem m' = mem m /\ device m' = device m /\ pause m' = pause m
  /\ bios m' = bios m /\ vga m' = vga m /\ timers m' = timers m.
Proof.
  cbv zeta. unfold int16_status.
  pose proof (readKeyState_frame_cpu T None (Keymap.key (keymap m)) m) as H.
  destruct (readKeyState T None (Keymap.key (keymap m)) m) as [status m1].
  cbn [snd] in H. exact H.
Qed.



Lemma dispatch_int10_set_page T V m :
  Regs.ah (regs m) = 0x5 ->
  bios_interrupt T V 0x10 m = Handled (Returns (int10_set_page m)).
Proof. intros H. unfold bios_interrupt. now rewrite H. Qed.

(** INT 10h AH=5 with a page number in AL, then the teletype service
    with a normal character in a text mode (whatever else the registers
    hold by then): AL of the first call is taken as the active page
    without a look at the number of pages of the mode, and the character
    is stored with attribute 7 at the cursor on that page; the cursor
    then moves on one column, or to column 0 of the next row at the end
    of a row of the mode. *)
Theorem int10_page_then_teletype (T : KeyTables) (V : VideoImports)
    (m : Machine) (r' : Regs.t) (md : VideoMode.t) :
  Regs.ah (regs m) = 0x5 ->
  Regs.ah r' = 0xe ->
  printable (Regs.al r') ->
  VGA.textMode (vga m) = true ->
  BIOS.mode (screen m) = Some md ->
  let x := Vec2D.x (VGA.cursor (vga m)) in
  let y := Vec2D.y (VGA.cursor (vga m)) in
  exists m1 m2,
    bios_interrupt T V 0x10 m = Handled (Returns m1)
    /\ bios_interrupt T V 0x10 (set_regs r' m1) = Handled (Returns m2)
    /\ BIOS.page (screen m2) = Regs.al (regs m)
    /\ VGA.cells (vga m2)
       = <[(Regs.al (regs m), x, y) := (Regs.al r', 7)]> (VGA.cells (vga m))
    /\ VGA.cursor (vga m2)
       = if VideoMode.w md <=? x + 1
         then Vec2D.Make 0 (y + 1) else Vec2D.Make (x + 1) y.
Proof.
  intros Hpage Hah Hc Htext Hmode. cbv zeta.
  exists (int10_set_page m). rewrite dispatch_int10_set_page by assumption.
  set (m1 := set_regs r' (int10_set_page m)).
  assert (Htext1 : VGA.textMode (vga m1) = true) by exact Htext.
  assert (Hmode1 : BIOS.mode (screen m1) = Some md) by exact Hmode.
  rewrite (dispatch_int10_teletype T V m1) by exact Hah.
  unfold int10_teletype. rewrite Htext1.
  rewrite (writeCharacter_printable V _ _ _ true _ m1 md) by assumption.
  cbv zeta. cbn [mbind mret Outcome_bind Outcome_ret].
  eexists. split; [reflexivity|]. split; [reflexivity|].
  split; [reflexivity|].
  cbn [vga set_vga setCursorLocation VideoMode_write VGA.cells VGA.cursor
       getTextCursorLocation Vec2D.x Vec2D.y].
  split; [|reflexivity].
  change (VGA.cells (vga m1)) with (VGA.cells (vga m)).
  change (BIOS.page (screen m1)) with (Regs.al (regs m)).
  change (Regs.al (regs m1)) with (Regs.al r').
  assert (Hal : Z.land (Regs.al r') 0xff = Regs.al r')
    by apply RegsFacts.lo8_idem.
  rewrite Hal. reflexivity.
Qed.

Lemma int10_page_then_teletype_witness :
  let m := text_machine (regs_of 0x0509 0 0 0) 0 79 3 in
  let r' := regs_of 0x0e21 0 0 0 in
  exists m1 m2,
    bios_interrupt sample_tables sample_video 0x10 m = Handled (Returns m1)
    /\ bios_interrupt sample_tables sample_video 0x10 (set_regs r' m1)
       = Handled (Returns m2)
    /\ BIOS.page (screen m2) = 9
    /\ VGA.cells (vga m2) = {[ (9, 79, 3) := (0x21, 7) ]}
    /\ VGA.cursor (vga m2) = Vec2D.Make 0 4.
Proof.
  cbv zeta.
  destruct (int10_page_then_teletype sample_tables sample_video
              (text_machine (regs_of 0x0509 0 0 0) 0 79 3)
              (regs_of 0x0e21 0 0 0) mode_3 eq_refl eq_refl)
    as (m1 & m2 & Hrun1 & Hrun2 & Hpage & Hcells & Hcur).
  - repeat split; discriminate.
  - reflexivity.
  - reflexivity.
  - exists m1, m2. repeat (split; [assumption|]). exact Hcur.
Defined.

(** ** What the services raise *)

Lemma writeCharacter_raises V c attribute color moveCursor cursor m e :
  writeCharacter V c attribute color moveCursor cursor m = Throws e ->
  BIOS.mode (screen m) = None /\ e = TypeError.
Proof.
  unfold writeCharacter.
  generalize (writeGraphicsCharacter V cursor c attribute
                (js_lor
                   (js_land color
                      (match attribute with
                       | JUndefined => JNum (Regs.bl (regs m))
                       | _ => attribute
                       end))
                   (JNum 7))
                (vga m)).
  intros g.
  destruct (BIOS.mode (screen m)) as [md|];
    repeat match goal with
           | |- context [if ?b then _ else _] =>
               destruct b; cbn [mbind mret Outcome_bind Outcome_ret]
           end;
    cbn [mbind mret Outcome_bind Outcome_ret];
    try discriminate; intros [= <-]; split; reflexivity.
Qed.

Lemma writeCharacters_loop_raises V n al attribute color moveCursor :
  forall cursor m e,
    writeCharacters_loop V n al attribute color moveCursor cursor m = Throws e ->
    BIOS.mode (screen m) = None /\ e = TypeError.
Proof.
  induction n as [|n IH]; intros cursor m e; cbn [writeCharacters_loop];
    [discriminate|].
  destruct (writeCharacter V al attribute color moveCursor cursor m)
    as [[cursor1 m1]|err] eqn:Hstep; cbn [mbind Outcome_bind].
  - intros Hrest. apply writeCharacter_vga_only in Hstep as [v ->].
    now apply IH in Hrest.
  - intros [= <-]. eapply writeCharacter_raises, Hstep.
Qed.

(** The exceptions of the services the dispatcher embeds (all but 1h,
    6h, 8h and 13h of INT 10h).  A service raises only in one of three
    ways: the blink service of INT 10h refuses every AL but 3 with its
    [Error]; a video service that reads the mode raises [TypeError] while
    no mode has been set; and the read service of INT 13h raises
    [TypeError] for a drive that is not in the table and may let a
    [RangeError] of the copy through.  Nothing else raises: with a mode
    set, every other video, keyboard, wait and disk service returns. *)
Theorem bios_interrupt_raises (T : KeyTables) (V : VideoImports)
    (interrupt : Z) (m : Machine) (e : JSError) :
  bios_interrupt T V interrupt m = Handled (Throws e) ->
  (interrupt = 0x10 /\ Regs.ah (regs m) = 0x10 /\ Regs.al (regs m) <> 0x3
   /\ e = Error "Unsupported 10h function!")
  \/ (interrupt = 0x10 /\ Regs.ah (regs m) <> 0x10
      /\ BIOS.mode (screen m) = None /\ e = TypeError)
  \/ (interrupt = 0x13 /\ Regs.ah (regs m) = 0x2
      /\ (e = TypeError /\ drives m !! Regs.dl (regs m) = None
          \/ e = RangeError /\ is_Some (drives m !! Regs.dl (regs m)))).
Proof.
  unfold bios_interrupt. cbv zeta.
  repeat match goal with
         | |- context [if ?a =? ?b then _ else _] => destruct (Z.eqb_spec a b)
         | |- context [if _ || _ then _ else _] => destruct (_ || _)
         end;
    try discriminate; intros [= Hrun].
  - (* 9h *)
    apply writeCharacters_loop_raises in Hrun as [Hmode ->].
    right. left. split; [assumption|]. split; [lia|]. now split.
  - apply writeCharacters_loop_raises in Hrun as [Hmode ->].
    right. left. split; [assumption|]. split; [lia|]. now split.
  - (* 0Eh *)
    unfold int10_teletype in Hrun.
    destruct (VGA.textMode (vga m));
      destruct (writeCharacter _ _ _ _ _ _ _) as [[cursor1 m1]|err] eqn:Hstep;
      cbn [mbind mret Outcome_bind Outcome_ret] in Hrun; try discriminate;
      injection Hrun as <-;
      apply writeCharacter_raises in Hstep as [Hmode ->];
      right; left; (split; [assumption|]); (split; [lia|]); now split.
  - (* 10h *)
    unfold int10_blink in Hrun.
    destruct (Z.eqb_spec (Regs.al (regs m)) 0x03); cbn [negb] in Hrun.
    + destruct (Regs.bx (regs m) =? 0); discriminate.
    + injection Hrun as <-. left. now repeat (split; [assumption|]).
  - (* 0Fh *)
    unfold int10_get_mode in Hrun.
    destruct (BIOS.mode (screen m)); [discriminate|].
    injection Hrun as <-. right. left.
    split; [assumption|]. split; [lia|]. now split.
  - (* INT 13h, 2h *)
    right. right. split; [assumption|]. split; [assumption|].
    unfold int13_read in Hrun.
    destruct (drives m !! Regs.dl (regs m)) as [drive|];
      [|injection Hrun as <-; now left].
    right. split; [|now eexists].
    cbv zeta in Hrun. rewrite medium_after_assign in Hrun.
    destruct (medium m drive) as [buffer|];
      cbn [mbind mret Outcome_bind Outcome_ret] in Hrun; [|discriminate].
    destruct (copy_sectors _ _ _ _ _ _ _) as [[memory' error]|err] eqn:Hcopy;
      cbn [mbind mret Outcome_bind Outcome_ret] in Hrun; [discriminate|].
    injection Hrun as <-. eapply copy_sectors_raises, Hcopy.
Qed.

Lemma bios_interrupt_raises_witness :
  let m := text_machine (regs_of 0x1000 0 0 0) 0 0 0 in
  Regs.ah (regs m) = 0x10 /\ Regs.al (regs m) <> 0x3.
Proof.
  cbv zeta.
  destruct (bios_interrupt_raises sample_tables sample_video 0x10
              (text_machine (regs_of 0x1000 0 0 0) 0 0 0)
              (Error "Unsupported 10h function!") eq_refl)
    as [(_ & Hah & Hal & _)|[(_ & Hah & _)|(H & _)]].
  - split; assumption.
  - exfalso. apply Hah. reflexivity.
  - discriminate H.
Defined.

(** ** INT 16h: peek, then read *)

(** INT 16h AH=1 and then the blocking read AH=0, with a key other than
    Shift, Ctrl and Alt held throughout (and whatever else the registers
    hold at the second call): the read delivers in AX the code the
    status call reported, mapped or not, does not pause, and leaves the
    buffer empty. *)
Theorem int16_peek_then_read (T : KeyTables) (V : VideoImports)
    (m : Machine) (k : Z) (r' : Regs.t) :
  Regs.ah (regs m) = 0x1 ->
  Keymap.key (keymap m) = Some k ->
  k < 16 \/ 18 < k ->
  Regs.ah r' = 0x0 ->
  exists m1 m2,
    bios_interrupt T V 0x16 m = Handled (Returns m1)
    /\ bios_interrupt T V 0x16 (set_regs r' m1) = Handled (Returns m2)
    /\ Regs.ax (regs m2) = Regs.ax (regs m1)
    /\ pause m2 = pause m
    /\ Keymap.key (keymap m2) = None.
Proof.
  intros Hah Hkey Hk Hah'.
  assert (Hmod : isCaseModifyKeycode k = true).
  { unfold isCaseModifyKeycode.
    destruct (Z.ltb_spec 18 k), (Z.ltb_spec k 16); try lia; reflexivity. }
  exists (int16_status T m).
  rewrite dispatch_int16_status by assumption.
  set (m1 := int16_status T m).
  assert (Hbios1 : bios m1 = bios m)
    by (destruct (int16_status_frame T m) as (_ & _ & _ & H & _); exact H).
  assert (Hpause1 : pause m1 = pause m)
    by (destruct (int16_status_frame T m) as (_ & _ & H & _); exact H).
  assert (Hax1 : Regs.ax (regs m1)
                 = Regs.ax (regs (snd (readKeyState T None (Some k) m)))).
  { unfold m1, int16_status. rewrite Hkey.
    destruct (readKeyState T None (Some k) m) as [status m0]. reflexivity. }
  exists (keyListener T None (set_regs r' m1)).
  rewrite (dispatch_int16_wait_key T V (set_regs r' m1)) by exact Hah'.
  split; [reflexivity|]. split; [reflexivity|].
  unfold keyListener.
  change (keymap (set_regs r' m1)) with (BIOS.keymap (bios m1)).
  rewrite Hbios1. fold (keymap m). rewrite Hkey, Hmod.
  destruct (readKeyState_frame T None (Some k) (set_regs r' m1)) as (Hp & _).
  split; [|split].
  - rewrite Hax1.
    change (regs (clearKeyBuffer true ?x)) with (regs x).
    apply (readKeyState_depends_on_shift T None (Some k) (set_regs r' m1) m).
    change (keymap (set_regs r' m1)) with (BIOS.keymap (bios m1)).
    now rewrite Hbios1.
  - change (pause (clearKeyBuffer true ?x)) with (pause x).
    rewrite Hp. exact Hpause1.
  - reflexivity.
Qed.

Lemma int16_peek_then_read_witness :
  let m := set_keymap (Keymap.Make false false false true (Some 65) None)
             (text_machine (regs_of 0x0100 0 0 0) 0 0 0) in
  exists m1 m2,
    bios_interrupt sample_tables sample_video 0x16 m = Handled (Returns m1)
    /\ bios_interrupt sample_tables sample_video 0x16
         (set_regs (regs_of 0x0000 0 0 0) m1) = Handled (Returns m2)
    /\ Regs.ax (regs m1) = 0x1e41
    /\ Regs.ax (regs m2) = 0x1e41.
Proof.
  cbv zeta.
  destruct (int16_peek_then_read sample_tables sample_video
              (set_keymap (Keymap.Make false false false true (Some 65) None)
                 (text_machine (regs_of 0x0100 0 0 0) 0 0 0))
              65 (regs_of 0x0000 0 0 0) eq_refl eq_refl)
    as (m1 & m2 & Hrun1 & Hrun2 & Hax & _).
  - right. lia.
  - reflexivity.
  - exists m1, m2. split; [exact Hrun1|]. split; [exact Hrun2|].
    assert (Hax1 : Regs.ax (regs m1) = 0x1e41).
    { injection Hrun1 as <-. reflexivity. }
    split; [exact Hax1 | now rewrite Hax].
Defined.
